(** * The rancher_volume resource of terraform-provider-rancher

    A shallow embedding of [rancher/resource_rancher_volume.go] (the five
    lifecycle callbacks [resourceRancherVolumeCreate], [..Read],
    [..Update], [..Delete], [..Import] and the closure
    [VolumeStateRefreshFunc]) together with the properties its design
    document states about them.

    The callbacks are Go functions that mutate a [*schema.ResourceData],
    talk to a remote Rancher API through a client and return an [error].
    They are embedded as computations of a small state-and-error monad
    [M]: the state holds the resource data [d], the remote world and the
    trace of outbound calls made so far; a computation ends with a value,
    with a Go [error], or with a run-time panic (nil pointer dereference).
    [log.Printf] lines have no effect on any of that and are left out. *)

From Stdlib Require Import ZArith Ascii String List Lia.
From stdpp Require Import base option list gmap strings.

Local Open Scope string_scope.
Local Open Scope Z_scope.
Local Open Scope list_scope.

(** ** Data *)

(** A Go [error], observed through its message ([Error() string]).
    [fmt.Errorf] builds a new message around the old one. *)
Definition error := string.

(** The result pair [(x, err)] of a fallible Go call. *)
Inductive result (A : Type) : Type :=
| Success (a : A)
| Failure (e : error).
Arguments Success {A} a.
Arguments Failure {A} e.

(** How a callback ends: it returns normally, returns a non-nil [error],
    or the Go run time panics. *)
Inductive Outcome (A : Type) : Type :=
| Ok (a : A)
| Err (e : error)
| Panic.
Arguments Ok {A} a.
Arguments Err {A} e.
Arguments Panic {A}.

(** The fields of [rancherClient.Volume] the resource reads or writes. *)
Record Volume : Type := mkVolume {
  Id : string;
  Name : string;
  Description : string;
  Driver : string;
  AccountId : string;
  State : string;
  Removed : string
}.

Definition withName (name : string) (v : Volume) : Volume :=
  mkVolume (Id v) name (Description v) (Driver v) (AccountId v) (State v) (Removed v).

Definition withDescription (description : string) (v : Volume) : Volume :=
  mkVolume (Id v) (Name v) description (Driver v) (AccountId v) (State v) (Removed v).

(** [schema.ResourceData] as the callbacks use it: the id behind
    [Id()]/[SetId] and the attributes behind [Get]/[Set], which the
    callbacks reach only under the four keys [name], [description],
    [driver] and [environment_id].  What the host runtime does with the
    bag on its own (its copy of the id under the key [id], its refusal
    of keys the resource table does not declare) is outside these
    callbacks and is not modelled: nothing below speaks of another
    key. *)
Record ResourceData : Type := mkResourceData {
  rd_id : string;
  rd_attrs : gmap string string
}.

(** ** The remote collaborators

    [Config.EnvironmentClient], [Config.GlobalClient] and the
    [client.Volume] operations are external.  They are taken as an
    arbitrary transition system on a world: every call may change the
    world and yields a value or an error.  [ById] yields a nil volume
    with a nil error when the resource does not exist.  [ActionRemove]
    reaches the remote side only with a volume: the client takes the
    address of a field of its argument before it sends anything, so a
    nil pointer never gets that far. *)
Record Remote : Type := mkRemote {
  World : Type;
  Client : Type;
  EnvironmentClient : string -> World -> World * result Client;
  GlobalClient : World -> World * result Client;
  Volume_Create : Client -> Volume -> World -> World * result Volume;
  Volume_ById : Client -> string -> World -> World * result (option Volume);
  Volume_Update : Client -> Volume -> Volume -> World -> World * result Volume;
  Volume_ActionRemove : Client -> Volume -> World -> World * result Volume
}.

(** What a run leaves behind: each outbound call with what it returned,
    each sleep of the poller, and the start and end of each convergence. *)
Inductive Event (R : Remote) : Type :=
| EvEnvironmentClient (env : string) (r : result (Client R))
| EvGlobalClient (r : result (Client R))
| EvCreate (c : Client R) (v : Volume) (r : result Volume)
| EvById (c : Client R) (id : string) (r : result (option Volume))
| EvUpdate (c : Client R) (existing updates : Volume) (r : result Volume)
| EvActionRemove (c : Client R) (v : Volume) (r : result Volume)
| EvSleep (ms : Z)
| EvWaitBegin (pending target : list string)
| EvWaitEnd (ok : bool).
Arguments EvEnvironmentClient {R} env r.
Arguments EvGlobalClient {R} r.
Arguments EvCreate {R} c v r.
Arguments EvById {R} c id r.
Arguments EvUpdate {R} c existing updates r.
Arguments EvActionRemove {R} c v r.
Arguments EvSleep {R} ms.
Arguments EvWaitBegin {R} pending target.
Arguments EvWaitEnd {R} ok.

(** ** The monad of callbacks *)

Record Machine (R : Remote) : Type := mkMachine {
  rd : ResourceData;
  remote : World R;
  trace : list (Event R)
}.
Arguments mkMachine {R} rd remote trace.
Arguments rd {R} m.
Arguments remote {R} m.
Arguments trace {R} m.

Definition M (R : Remote) (A : Type) : Type :=
  Machine R -> Outcome A * Machine R.

Definition ret {R A} (a : A) : M R A := fun m => (Ok a, m).

Definition throw {R A} (e : error) : M R A := fun m => (Err e, m).

Definition panic {R A} : M R A := fun m => (Panic, m).

Definition bind {R A B} (c : M R A) (k : A -> M R B) : M R B :=
  fun m =>
    match c m with
    | (Ok a, m') => k a m'
    | (Err e, m') => (Err e, m')
    | (Panic, m') => (Panic, m')
    end.

Declare Scope go_scope.
Delimit Scope go_scope with go.
Notation "x <- c ;; k" := (bind c (fun x => k))
  (at level 100, c at next level, right associativity) : go_scope.
Notation "c ;;; k" := (bind c (fun _ => k))
  (at level 100, right associativity) : go_scope.
Local Open Scope go_scope.

Definition emit {R} (e : Event R) (m : Machine R) : Machine R :=
  mkMachine (rd m) (remote m) (trace m ++ [e]).

(** One outbound call: run it on the world, record it, and turn its
    [(x, err)] pair into a value of the monad.  The caller decides what
    to do with a [Failure]. *)
Definition call {R A} (f : World R -> World R * result A)
    (ev : result A -> Event R) : M R (result A) :=
  fun m =>
    let (w, r) := f (remote m) in
    (Ok r, mkMachine (rd m) w (trace m ++ [ev r])).

(** [x, err := f(...); if err != nil { return err }] *)
Definition check {R A} (r : result A) : M R A :=
  match r with
  | Success a => ret a
  | Failure e => throw e
  end.

(** [if err != nil { return fmt.Errorf(msg, err) }] *)
Definition checkWrap {R A} (wrap : error -> error) (r : result A) : M R A :=
  match r with
  | Success a => ret a
  | Failure e => throw (wrap e)
  end.

(** *** [schema.ResourceData] accessors *)

Definition d_Id {R} : M R string := fun m => (Ok (rd_id (rd m)), m).

Definition d_SetId {R} (id : string) : M R unit :=
  fun m => (Ok tt, mkMachine (mkResourceData id (rd_attrs (rd m))) (remote m) (trace m)).

(** [d.Get(key).(string)]: the zero value when the key was never set. *)
Definition Get (d : ResourceData) (key : string) : string :=
  default "" (rd_attrs d !! key).

Definition d_Get {R} (key : string) : M R string :=
  fun m => (Ok (Get (rd m) key), m).

Definition d_Set {R} (key value : string) : M R unit :=
  fun m => (Ok tt, mkMachine (mkResourceData (rd_id (rd m)) (<[key := value]> (rd_attrs (rd m))))
                             (remote m) (trace m)).

(** *** The outbound calls, recorded *)

Definition meta_EnvironmentClient {R} (env : string) : M R (result (Client R)) :=
  call (EnvironmentClient R env) (EvEnvironmentClient env).

Definition meta_GlobalClient {R} : M R (result (Client R)) :=
  call (GlobalClient R) EvGlobalClient.

Definition client_Volume_Create {R} (c : Client R) (v : Volume) : M R (result Volume) :=
  call (Volume_Create R c v) (EvCreate c v).

Definition client_Volume_ById {R} (c : Client R) (id : string) : M R (result (option Volume)) :=
  call (Volume_ById R c id) (EvById c id).

Definition client_Volume_Update {R} (c : Client R) (existing updates : Volume)
    : M R (result Volume) :=
  call (Volume_Update R c existing updates) (EvUpdate c existing updates).

(** [client.Volume.ActionRemove(resource)] for a pointer that may be
    nil: the client evaluates [&resource.Resource] first, which on a nil
    pointer is a run-time panic inside the client, before any request. *)
Definition client_Volume_ActionRemove {R} (c : Client R) (resource : option Volume)
    : M R (result Volume) :=
  match resource with
  | Some v => call (Volume_ActionRemove R c v) (EvActionRemove c v)
  | None => panic
  end.

(** [p.f] through a pointer [p] that may be nil. *)
Definition deref {R A} (p : option Volume) (f : Volume -> A) : M R A :=
  match p with
  | Some v => ret (f v)
  | None => panic
  end.

(** ** The state-convergence poller

    [resource.StateChangeConf] and its [WaitForState] belong to the host
    runtime's helper library; only their use is in this repository. *)

(** [time.Duration], counted in milliseconds. *)
Definition Second : Z := 1000.
Definition Minute : Z := 60 * Second.

(** [resource.StateRefreshFunc]: [func() (interface{}, string, error)].
    A nil first component with a nil error is the not-found signal. *)
Definition StateRefreshFunc (R : Remote) : Type :=
  M R (result (option Volume * string)).

(** The fields of [resource.StateChangeConf] the callbacks fill in. *)
Record StateChangeConf (R : Remote) : Type := mkStateChangeConf {
  Pending : list string;
  Target : list string;
  Refresh : StateRefreshFunc R;
  Timeout : Z;
  Delay : Z;
  MinTimeout : Z
}.
Arguments mkStateChangeConf {R} Pending Target Refresh Timeout Delay MinTimeout.
Arguments Pending {R} s.
Arguments Target {R} s.
Arguments Refresh {R} s.
Arguments Timeout {R} s.
Arguments Delay {R} s.
Arguments MinTimeout {R} s.

(** [state] occurs in the list [states]. *)
Definition inStates (state : string) (states : list string) : bool :=
  existsb (String.eqb state) states.

Definition joinStates (states : list string) : string :=
  String.concat ", " states.

(** Modelled from the spec: the unexpected-state error of section 7,
    whose text belongs to the host runtime's helper library.  It names
    the state seen and the states waited for; the request of the
    source has no field for the resource id, which the callbacks add
    when they wrap the error (lines 80, 171 and 198). *)
Definition UnexpectedStateError (state : string) (expected : list string) : error :=
  "unexpected state '" +:+ state +:+ "', wanted target '" +:+ joinStates expected +:+ "'".

(** Modelled from the spec: the timeout error of section 7, naming the
    last state seen and the states waited for; the id is added by the
    callbacks as above. *)
Definition TimeoutError (lastState : string) (expected : list string) : error :=
  "timeout while waiting for state to become '" +:+ joinStates expected
    +:+ "' (last state: '" +:+ lastState +:+ "')".

(** Modelled from the spec: the error of section 4.1 for a not-found
    signal while waiting for creation or activation. *)
Definition NotFoundError : error := "couldn't find resource".

Definition sleep {R} (ms : Z) : M R unit :=
  fun m => (Ok tt, emit (EvSleep ms) m).

(** Modelled from the spec: the polling loop of [WaitForState], which is
    code of the host runtime's helper library and not in this repository.
    Section 4.1: call fetch; a transport error aborts; a state in the
    target set returns success at once; a state in the pending set waits
    the minimum poll interval and polls again; any other state aborts
    with an unexpected-state error; not-found counts as reaching the
    target when the call waits for removal and is an error otherwise; a
    call that outlives the timeout aborts naming the last state seen.
    The clock is nominal: each pending observation costs one minimum
    poll interval, so [budget] polls fit in the timeout. *)
Fixpoint pollLoop {R} (conf : StateChangeConf R) (budget : nat) (lastState : string)
    : M R (result (option Volume)) :=
  match budget with
  | O => ret (Failure (TimeoutError lastState (Target conf)))
  | S budget' =>
      fetched <- Refresh conf ;;
      match fetched with
      | Failure err => ret (Failure err)
      | Success (None, _) =>
          if inStates "removed" (Target conf)
          then ret (Success None)
          else ret (Failure NotFoundError)
      | Success (Some snapshot, state) =>
          if inStates state (Target conf) then ret (Success (Some snapshot))
          else if inStates state (Pending conf)
          then sleep (MinTimeout conf) ;;; pollLoop conf budget' state
          else ret (Failure (UnexpectedStateError state (Target conf)))
      end
  end.

(** The number of polls that fit in the timeout. *)
Definition pollBudget {R} (conf : StateChangeConf R) : nat :=
  S (Z.to_nat (Timeout conf / MinTimeout conf)).

Definition waitEnded {A} (r : result A) : bool :=
  match r with
  | Success _ => true
  | Failure _ => false
  end.

(** Modelled from the spec: [WaitForState] of the host runtime's helper
    library, section 4.1: wait [Delay] before the first poll, then run
    the loop.  It returns the pair (snapshot, error) to its caller. *)
Definition WaitForState {R} (conf : StateChangeConf R) : M R (result (option Volume)) :=
  fun m =>
    match (sleep (Delay conf) ;;; pollLoop conf (pollBudget conf) "")
            (emit (EvWaitBegin (Pending conf) (Target conf)) m) with
    | (Ok r, m') => (Ok r, emit (EvWaitEnd (waitEnded r)) m')
    | (Err e, m') => (Err e, m')
    | (Panic, m') => (Panic, m')
    end.

(** ** The resource *)

(** [VolumeStateRefreshFunc], lines 227-237.  [env.State] is read
    whether or not [env] is nil. *)
Definition VolumeStateRefreshFunc {R} (client : Client R) (volumeID : string)
    : StateRefreshFunc R :=
  r <- client_Volume_ById client volumeID ;;
  match r with
  | Failure err => ret (Failure err)
  | Success env =>
      state <- deref env State ;;
      ret (Success (env, state))
  end.

(** The three [StateChangeConf] literals: lines 70-77, 160-167, 187-194. *)
Definition createStateConf {R} (client : Client R) (id : string) : StateChangeConf R :=
  {| Pending := ["inactive"];
     Target := ["inactive"];
     Refresh := VolumeStateRefreshFunc client id;
     Timeout := 10 * Minute;
     Delay := 1 * Second;
     MinTimeout := 3 * Second |}.

Definition drainStateConf {R} (client : Client R) (id : string) : StateChangeConf R :=
  {| Pending := ["active"; "deactivating"];
     Target := ["inactive"; "detached"];
     Refresh := VolumeStateRefreshFunc client id;
     Timeout := 10 * Minute;
     Delay := 1 * Second;
     MinTimeout := 3 * Second |}.

Definition removeStateConf {R} (client : Client R) (id : string) : StateChangeConf R :=
  {| Pending := ["inactive"; "detached"; "removed"; "removing"];
     Target := ["removed"];
     Refresh := VolumeStateRefreshFunc client id;
     Timeout := 10 * Minute;
     Delay := 1 * Second;
     MinTimeout := 3 * Second |}.

Section Resource.
Context {R : Remote}.

(** [removed] and [splitID] are helpers of the package defined outside
    this file; the callbacks are embedded over any such pair. *)
Variable removed : string -> bool.
Variable splitID : string -> string * string.

(** Lines 90-122. *)
Definition resourceRancherVolumeRead : M R unit :=
  env <- d_Get "environment_id" ;;
  r <- meta_EnvironmentClient env ;;
  client <- check r ;;
  id <- d_Id ;;
  r <- client_Volume_ById client id ;;
  volume <- check r ;;
  match volume with
  | None => d_SetId ""
  | Some v =>
      if removed (State v) then d_SetId ""
      else
        d_Set "description" (Description v) ;;;
        d_Set "name" (Name v) ;;;
        d_Set "driver" (Driver v) ;;;
        d_Set "environment_id" (AccountId v)
  end.

(** Lines 49-88. *)
Definition resourceRancherVolumeCreate : M R unit :=
  env <- d_Get "environment_id" ;;
  r <- meta_EnvironmentClient env ;;
  client <- check r ;;
  name <- d_Get "name" ;;
  description <- d_Get "description" ;;
  driver <- d_Get "driver" ;;
  let volume := mkVolume "" name description driver "" "" "" in
  r <- client_Volume_Create client volume ;;
  newVolume <- check r ;;
  let stateConf := createStateConf client (Id newVolume) in
  r <- WaitForState stateConf ;;
  checkWrap (fun waitErr =>
    "Error waiting for volume (" +:+ Id newVolume +:+ ") to be created: " +:+ waitErr) r ;;;
  d_SetId (Id newVolume) ;;;
  resourceRancherVolumeRead.

(** Lines 124-143.  [volume.Name = name] writes through the pointer
    [ById] returned; [Update] gets that one object as both arguments,
    and what it returns is dropped. *)
Definition resourceRancherVolumeUpdate : M R unit :=
  env <- d_Get "environment_id" ;;
  r <- meta_EnvironmentClient env ;;
  client <- check r ;;
  id <- d_Id ;;
  r <- client_Volume_ById client id ;;
  volume <- check r ;;
  name <- d_Get "name" ;;
  description <- d_Get "description" ;;
  volume <- deref volume (withName name) ;;
  let volume := withDescription description volume in
  client_Volume_Update client volume volume ;;;
  resourceRancherVolumeRead.

(** Lines 145-204. *)
Definition resourceRancherVolumeDelete : M R unit :=
  id <- d_Id ;;
  env <- d_Get "environment_id" ;;
  r <- meta_EnvironmentClient env ;;
  client <- check r ;;
  id' <- d_Id ;;
  r <- client_Volume_ById client id' ;;
  check r ;;;
  let stateConf := drainStateConf client id in
  r <- WaitForState stateConf ;;
  checkWrap (fun waitErr =>
    "Error waiting for volume (" +:+ id +:+ ") to be detached or inactive: " +:+ waitErr) r ;;;
  r <- client_Volume_ById client id ;;
  volume <- checkWrap (fun err =>
    "Failed to refresh state of detached or inactive volume (" +:+ id +:+ "): " +:+ err) r ;;
  r <- client_Volume_ActionRemove client volume ;;
  checkWrap (fun err => "Error removing volume: " +:+ err) r ;;;
  let stateConf := removeStateConf client id in
  r <- WaitForState stateConf ;;
  checkWrap (fun waitErr =>
    "Error waiting for volume (" +:+ id +:+ ") to be removed: " +:+ waitErr) r ;;;
  d_SetId "".

(** Lines 206-223.  The callback returns the slice holding [d] itself;
    an error comes with the empty slice. *)
Definition resourceRancherVolumeImport : M R (list ResourceData) :=
  raw <- d_Id ;;
  let '(envID, resourceID) := splitID raw in
  d_SetId resourceID ;;;
  (if negb (String.eqb envID "") then
     d_Set "environment_id" envID
   else
     r <- meta_GlobalClient ;;
     client <- check r ;;
     id <- d_Id ;;
     r <- client_Volume_ById client id ;;
     volume <- check r ;;
     accountId <- deref volume AccountId ;;
     d_Set "environment_id" accountId) ;;;
  fun m => (Ok [rd m], m).

End Resource.

(** Run a callback on resource data [d] against world [w], from an empty
    trace. *)
Definition run {R A} (c : M R A) (d : ResourceData) (w : World R)
    : Outcome A * Machine R :=
  c (mkMachine d w []).

(** ** A scripted remote

    A concrete [Remote] for running the callbacks: the world is a script
    that fixes what each kind of call answers; successive [ById] calls
    consume the list [lookups]. *)
Module Scripted.

Record Script : Type := mkScript {
  clients : result unit;
  created : result Volume;
  lookups : list (result (option Volume));
  updated : result Volume;
  removal : result Volume
}.

Inductive Handle : Type :=
| Scoped (env : string)
| Global.

Definition resolve (h : Handle) (w : Script) : Script * result Handle :=
  (w, match clients w with
      | Success _ => Success h
      | Failure e => Failure e
      end).

Definition byId (w : Script) : Script * result (option Volume) :=
  match lookups w with
  | [] => (w, Failure "script exhausted")
  | r :: rest =>
      (mkScript (clients w) (created w) rest (updated w) (removal w), r)
  end.

Definition remote : Remote :=
  {| World := Script;
     Client := Handle;
     EnvironmentClient := fun env => resolve (Scoped env);
     GlobalClient := resolve Global;
     Volume_Create := fun _ _ w => (w, created w);
     Volume_ById := fun _ _ => byId;
     Volume_Update := fun _ _ _ w => (w, updated w);
     Volume_ActionRemove := fun _ _ w => (w, removal w) |}.

(** Modelled from the spec: [removed], a helper of the package that is
    not in this file; a resource is gone when its state is the removed
    terminal state. *)
Definition removed (state : string) : bool := String.eqb state "removed".

Fixpoint splitAt (sep : Ascii.ascii) (acc s : string) : option (string * string) :=
  match s with
  | EmptyString => None
  | String a rest =>
      if Ascii.eqb a sep then Some (acc, rest)
      else splitAt sep (acc +:+ String a EmptyString) rest
  end.

(** Modelled from the spec: [splitID], a helper of the package that is
    not in this file; the input is [<scope>/<id>] or a bare [<id>],
    and a bare id has an empty scope. *)
Definition splitID (id : string) : string * string :=
  match splitAt "/"%char "" id with
  | Some (envID, resourceID) => (envID, resourceID)
  | None => ("", id)
  end.

Definition vol (state : string) : Volume :=
  mkVolume "vol-123" "foo" "volume test" "rancher-nfs" "env1" state "".

Definition seen (state : string) : result (option Volume) :=
  Success (Some (vol state)).

Definition script (ls : list (result (option Volume))) : Script :=
  mkScript (Success tt) (Success (vol "inactive")) ls (Success (vol "inactive"))
           (Success (vol "removing")).

Definition declared (id : string) : ResourceData :=
  mkResourceData id
    (<["environment_id" := "env1"]>
       (<["name" := "foo"]>
          (<["driver" := "rancher-nfs"]>
             (<["description" := "volume test"]> ∅)))).

End Scripted.

(** ** Observations on a trace *)

(** The steps of a delete that its design names: a convergence starts
    with its two state sets, a convergence ends, the remove call. *)
Inductive Phase : Type :=
| PhaseBegin (pending target : list string)
| PhaseEnd (ok : bool)
| PhaseRemove.

Definition phaseOf {R} (e : Event R) : option Phase :=
  match e with
  | EvWaitBegin pending target => Some (PhaseBegin pending target)
  | EvWaitEnd ok => Some (PhaseEnd ok)
  | EvActionRemove _ _ _ => Some PhaseRemove
  | _ => None
  end.

Definition phases {R} (tr : list (Event R)) : list Phase := omap phaseOf tr.

(** What the poller itself does: lookups and sleeps. *)
Definition isPoll {R} (e : Event R) : bool :=
  match e with
  | EvById _ _ _ | EvSleep _ => true
  | _ => false
  end.

(** The answers of the by-id lookups, in order. *)
Definition lookupOf {R} (e : Event R) : option (result (option Volume)) :=
  match e with
  | EvById _ _ r => Some r
  | _ => None
  end.

Definition lookupResults {R} (tr : list (Event R)) : list (result (option Volume)) :=
  omap lookupOf tr.

(** Calls that change the remote side. *)
Definition isMutation {R} (e : Event R) : bool :=
  match e with
  | EvCreate _ _ _ | EvUpdate _ _ _ _ | EvActionRemove _ _ _ => true
  | _ => false
  end.

(** The remove calls of a trace. *)
Definition isRemoveCall {R} (e : Event R) : bool :=
  match e with
  | EvActionRemove _ _ _ => true
  | _ => false
  end.

Definition removeCalls {R} (tr : list (Event R)) : nat :=
  length (List.filter isRemoveCall tr).

Definition isRemoveStep (p : Phase) : bool :=
  match p with
  | PhaseRemove => true
  | _ => false
  end.

Definition removeSteps (ps : list Phase) : nat :=
  length (List.filter isRemoveStep ps).

(** The steps of a delete that runs to its end, in order: the drain
    convergence succeeds, the volume is removed, the removal convergence
    succeeds. *)
Definition drainBegin : Phase :=
  PhaseBegin ["active"; "deactivating"] ["inactive"; "detached"].

Definition removeBegin : Phase :=
  PhaseBegin ["inactive"; "detached"; "removed"; "removing"] ["removed"].

Definition deletePhases : list Phase :=
  [drainBegin; PhaseEnd true; PhaseRemove; removeBegin; PhaseEnd true].

(** The steps of a delete that stops early: at client resolution or the
    first lookup, inside or at the end of the drain, at the second
    lookup, at the remove call, inside or at the end of the removal
    convergence. *)
Definition deleteStopped : list (list Phase) :=
  [ [];
    [drainBegin];
    [drainBegin; PhaseEnd false];
    [drainBegin; PhaseEnd true];
    [drainBegin; PhaseEnd true; PhaseRemove];
    [drainBegin; PhaseEnd true; PhaseRemove; removeBegin];
    [drainBegin; PhaseEnd true; PhaseRemove; removeBegin; PhaseEnd false] ].

(** What a read that reaches the lookup leaves in [d]. *)
Definition refreshed (removed : string -> bool) (d : ResourceData) (volume : option Volume)
    : ResourceData :=
  match volume with
  | None => mkResourceData "" (rd_attrs d)
  | Some v =>
      if removed (State v) then mkResourceData "" (rd_attrs d)
      else mkResourceData (rd_id d)
             (<["environment_id" := AccountId v]>
                (<["driver" := Driver v]>
                   (<["name" := Name v]>
                      (<["description" := Description v]> (rd_attrs d)))))
  end.

(** The volume a create sends: lines 60-64. *)
Definition declaredVolume (d : ResourceData) : Volume :=
  mkVolume "" (Get d "name") (Get d "description") (Get d "driver") "" "" "".

(** What an update sends: the fetched volume after lines 138-139. *)
Definition patched (d : ResourceData) (v : Volume) : Volume :=
  withDescription (Get d "description") (withName (Get d "name") v).

(** The error an outbound call answered with, if it did. *)
Definition failureOf {R} (e : Event R) : option error :=
  match e with
  | EvEnvironmentClient _ (Failure err)
  | EvGlobalClient (Failure err)
  | EvCreate _ _ (Failure err)
  | EvById _ _ (Failure err)
  | EvUpdate _ _ _ (Failure err)
  | EvActionRemove _ _ (Failure err) => Some err
  | _ => None
  end.

(** The outcome is an error whose message ends with [err]. *)
Definition returnsError {A} (o : Outcome A) (err : error) : Prop :=
  exists prefix, o = Err (prefix +:+ err).

(** ** The resource table: lines 13-47 *)

(** The fields of [schema.Schema] the table sets; the others keep their
    zero value.  Every entry has [Type: schema.TypeString]. *)
Record schema_Schema : Type := mkSchema {
  Computed : bool;
  Required : bool;
  Optional : bool;
  ForceNew : bool
}.

(** [schema.Resource], with [Importer.State] as one field. *)
Record schema_Resource (R : Remote) : Type := mkResource {
  Create : M R unit;
  Read : M R unit;
  Update : M R unit;
  Delete : M R unit;
  Importer_State : M R (list ResourceData);
  Schema : gmap string schema_Schema
}.
Arguments mkResource {R} Create Read Update Delete Importer_State Schema.
Arguments Create {R} s.
Arguments Read {R} s.
Arguments Update {R} s.
Arguments Delete {R} s.
Arguments Importer_State {R} s.
Arguments Schema {R} s.

Definition resourceRancherVolume {R : Remote}
    (removed : string -> bool) (splitID : string -> string * string)
    : schema_Resource R :=
  {| Create := resourceRancherVolumeCreate removed;
     Read := resourceRancherVolumeRead removed;
     Update := resourceRancherVolumeUpdate removed;
     Delete := resourceRancherVolumeDelete;
     Importer_State := resourceRancherVolumeImport splitID;
     Schema :=
       <["id" := mkSchema true false false false]>
         (<["name" := mkSchema false true false false]>
            (<["driver" := mkSchema false true false false]>
               (<["description" := mkSchema false false true false]>
                  (<["environment_id" := mkSchema false true false true]> ∅)))) |}.

(** The mutating calls of a trace, in order. *)
Definition mutations {R} (tr : list (Event R)) : list (Event R) :=
  List.filter isMutation tr.

(** ** The acceptance-test helpers

    [rancher/resource_rancher_volume_test.go], lines 73-182.  They run
    against the provider's [Config], the same remote as the callbacks,
    and read a [terraform.State]. *)

(** [terraform.InstanceState] and [terraform.ResourceState], the fields
    the helpers read.  [Primary] is a pointer. *)
Record InstanceState : Type := mkInstanceState {
  ID : string;
  Attributes : gmap string string
}.

Record ResourceState : Type := mkResourceState {
  rs_Type : string;
  Primary : option InstanceState
}.

(** [rs.Primary.f] through the pointer [rs.Primary]. *)
Definition primary {R A} (rs : ResourceState) (f : InstanceState -> A) : M R A :=
  match Primary rs with
  | Some p => ret (f p)
  | None => panic
  end.

(** The literal of lines 108-115: the removal request of the test. *)
Definition disappearsStateConf {R} (client : Client R) (id : string) : StateChangeConf R :=
  {| Pending := ["inactive"; "detached"; "removing"];
     Target := ["removed"];
     Refresh := VolumeStateRefreshFunc client id;
     Timeout := 10 * Minute;
     Delay := 1 * Second;
     MinTimeout := 3 * Second |}.

Section Acceptance.
Context {R : Remote}.

(** The pointer [ById] hands back together with a non-nil error: the
    client library decides it, and line 100 reads its [Id]. *)
Variable failedLookup : option Volume.

(** Lines 73-125, applied to the volume [vol] points to.  Line 98
    rebinds [vol] to what the lookup returns, and lines 104-122 go on
    with that pointer. *)
Definition testAccRancherVolumeDisappears (vol : Volume) : M R unit :=
  r <- meta_EnvironmentClient (AccountId vol) ;;
  client <- check r ;;
  let stateConf := drainStateConf client (Id vol) in
  r <- WaitForState stateConf ;;
  checkWrap (fun waitErr =>
    "Error waiting for volume (" +:+ Id vol +:+ ") to be deactivated: " +:+ waitErr) r ;;;
  r <- client_Volume_ById client (Id vol) ;;
  vol' <- match r with
          | Success vol' => ret vol'
          | Failure err =>
              id <- deref failedLookup Id ;;
              throw ("Failed to refresh state of deactivated volume (" +:+ id +:+ "): "
                       +:+ err)
          end ;;
  r <- client_Volume_ActionRemove client vol' ;;
  checkWrap (fun err => "Error removing volume: " +:+ err) r ;;;
  id <- deref vol' Id ;;
  let stateConf := disappearsStateConf client id in
  r <- WaitForState stateConf ;;
  checkWrap (fun waitErr =>
    "Error waiting for volume (" +:+ id +:+ ") to be removed: " +:+ waitErr) r ;;;
  ret tt.

(** Lines 127-157, for the root module's resources [s].  The volume it
    returns is what line 153 copies into [*vol]. *)
Definition testAccCheckRancherVolumeExists (n : string) (s : gmap string ResourceState)
    : M R Volume :=
  match s !! n with
  | None => throw ("Not found: " +:+ n)
  | Some rs =>
      id <- primary rs ID ;;
      if String.eqb id "" then throw "No App Name is set"
      else
        attributes <- primary rs Attributes ;;
        r <- meta_EnvironmentClient (default "" (attributes !! "environment_id")) ;;
        client <- check r ;;
        id <- primary rs ID ;;
        r <- client_Volume_ById client id ;;
        foundVol <- check r ;;
        foundId <- deref foundVol Id ;;
        id <- primary rs ID ;;
        if negb (String.eqb foundId id) then throw "Volume not found"
        else deref foundVol (fun v => v)
  end.

(** Lines 159-182, over the root module's resources in the order the
    [range] visits them; Go leaves that order open. *)
Fixpoint testAccCheckRancherVolumeDestroy (resources : list ResourceState) : M R unit :=
  match resources with
  | [] => ret tt
  | rs :: rest =>
      if negb (String.eqb (rs_Type rs) "rancher_volume")
      then testAccCheckRancherVolumeDestroy rest
      else
        r <- meta_GlobalClient ;;
        client <- check r ;;
        id <- primary rs ID ;;
        r <- client_Volume_ById client id ;;
        match r with
        | Success (Some v) =>
            id <- primary rs ID ;;
            if String.eqb (Id v) id && negb (String.eqb (State v) "removed")
            then throw "Volume still exists"
            else ret tt
        | Success None => ret tt
        | Failure _ => ret tt
        end
  end.

End Acceptance.

(** What one lookup makes of the create request. *)
Definition settled (r : result (option Volume)) : Outcome (result (option Volume)) :=
  match r with
  | Success (Some v) =>
      if String.eqb (State v) "inactive" then Ok (Success (Some v))
      else Ok (Failure (UnexpectedStateError (State v) ["inactive"]))
  | Success None => Panic
  | Failure err => Ok (Failure err)
  end.

(** The end mark a convergence leaves, if it returns. *)
Definition endMark {R} (o : Outcome (result (option Volume))) : list (Event R) :=
  match o with
  | Ok r => [EvWaitEnd (waitEnded r)]
  | _ => []
  end.

(** The steps of the disappearance helper, as [deletePhases] and
    [deleteStopped] for a delete. *)
Definition disappearsBegin : Phase :=
  PhaseBegin ["inactive"; "detached"; "removing"] ["removed"].

Definition disappearsPhases : list Phase :=
  [drainBegin; PhaseEnd true; PhaseRemove; disappearsBegin; PhaseEnd true].

Definition disappearsStopped : list (list Phase) :=
  [ [];
    [drainBegin];
    [drainBegin; PhaseEnd false];
    [drainBegin; PhaseEnd true];
    [drainBegin; PhaseEnd true; PhaseRemove];
    [drainBegin; PhaseEnd true; PhaseRemove; disappearsBegin];
    [drainBegin; PhaseEnd true; PhaseRemove; disappearsBegin; PhaseEnd false] ].

(** The polls of a convergence that ends in success, as they show in a
    trace: lookups by [id] through [c] that each find a volume; the last
    finds it in a state of [target]; each one before it finds it in a
    state of [pending] that is not of [target] and is followed by a
    sleep of [interval]. *)
Fixpoint polledTo {R} (c : Client R) (id : string) (pending target : list string)
    (interval : Z) (evs : list (Event R)) : Prop :=
  match evs with
  | EvById c' id' (Success (Some v)) :: rest =>
      c' = c /\ id' = id /\
      match rest with
      | [] => inStates (State v) target = true
      | EvSleep ms :: rest' =>
          inStates (State v) target = false /\
          inStates (State v) pending = true /\
          ms = interval /\
          polledTo c id pending target interval rest'
      | _ => False
      end
  | _ => False
  end.

(** ** Stepping through a callback *)

Section Steps.
Context {R : Remote}.
Implicit Types (m : Machine R).

Lemma bind_ret {A B} (a : A) (k : A -> M R B) m : bind (ret a) k m = k a m.
Proof. reflexivity. Qed.

Lemma bind_throw {A B} (e : error) (k : A -> M R B) m :
  bind (throw e) k m = (Err e, m).
Proof. reflexivity. Qed.

Lemma bind_panic {A B} (k : A -> M R B) m : bind panic k m = (Panic, m).
Proof. reflexivity. Qed.

Lemma bind_d_Id {B} (k : string -> M R B) m : bind d_Id k m = k (rd_id (rd m)) m.
Proof. reflexivity. Qed.

Lemma bind_d_Get {B} key (k : string -> M R B) m :
  bind (d_Get key) k m = k (Get (rd m) key) m.
Proof. reflexivity. Qed.

Lemma bind_d_SetId {B} id (k : unit -> M R B) m :
  bind (d_SetId id) k m =
  k tt (mkMachine (mkResourceData id (rd_attrs (rd m))) (remote m) (trace m)).
Proof. reflexivity. Qed.

Lemma bind_d_Set {B} key value (k : unit -> M R B) m :
  bind (d_Set key value) k m =
  k tt (mkMachine (mkResourceData (rd_id (rd m)) (<[key := value]> (rd_attrs (rd m))))
                  (remote m) (trace m)).
Proof. reflexivity. Qed.

Lemma bind_call {A B} (f : World R -> World R * result A) ev
    (k : result A -> M R B) m :
  bind (call f ev) k m =
  k (snd (f (remote m)))
    (mkMachine (rd m) (fst (f (remote m))) (trace m ++ [ev (snd (f (remote m)))])).
Proof. unfold bind, call. destruct (f (remote m)); reflexivity. Qed.

Lemma bind_run {A B} (c : M R A) (k : A -> M R B) m :
  bind c k m =
  match c m with
  | (Ok a, m') => k a m'
  | (Err e, m') => (Err e, m')
  | (Panic, m') => (Panic, m')
  end.
Proof. reflexivity. Qed.

Lemma phases_nil : phases (@nil (Event R)) = [].
Proof. reflexivity. Qed.

Lemma phases_cons (e : Event R) (tr : list (Event R)) :
  phases (e :: tr) =
  match phaseOf e with Some p => p :: phases tr | None => phases tr end.
Proof. reflexivity. Qed.

Lemma phases_app (a b : list (Event R)) : phases (a ++ b) = phases a ++ phases b.
Proof. apply omap_app. Qed.

Lemma phases_poll (evs : list (Event R)) :
  forallb isPoll evs = true -> phases evs = [].
Proof.
  induction evs as [|e evs IH]; [reflexivity|].
  cbn [forallb]. intros [He Hevs]%andb_prop.
  destruct e; try discriminate He; cbn; auto.
Qed.

Lemma removeCalls_phases (tr : list (Event R)) :
  removeCalls tr = removeSteps (phases tr).
Proof.
  unfold removeCalls, removeSteps.
  induction tr as [|e tr IH]; [reflexivity|].
  rewrite phases_cons. destruct e; cbn [List.filter isRemoveCall phaseOf isRemoveStep length];
    rewrite ?IH; reflexivity.
Qed.

End Steps.

(** Pure steps: returns, accessors of [d]. *)
Ltac go_pure :=
  repeat first
    [ rewrite bind_ret | rewrite bind_throw | rewrite bind_panic
    | rewrite bind_d_Id | rewrite bind_d_Get | rewrite bind_d_SetId | rewrite bind_d_Set ];
  cbn [rd remote trace rd_id rd_attrs fst snd].

(** One outbound call: name the world [w] and the answer [r] it gives. *)
Ltac go_call w r :=
  unfold meta_EnvironmentClient, meta_GlobalClient, client_Volume_Create,
    client_Volume_ById, client_Volume_Update, client_Volume_ActionRemove;
  rewrite bind_call; cbn [rd remote trace rd_id rd_attrs];
  match goal with
  | |- context [mkMachine _ (fst ?f) _] => destruct f as [w r] eqn:?; cbn [fst snd]
  end.

(** One outbound call whose answer a hypothesis [H] gives. *)
Ltac go_known H :=
  unfold meta_EnvironmentClient, meta_GlobalClient, client_Volume_Create,
    client_Volume_ById, client_Volume_Update, client_Volume_ActionRemove;
  rewrite bind_call; cbn [rd remote trace rd_id rd_attrs];
  rewrite ?H; cbn [fst snd].

Ltac phases_norm :=
  repeat (first [ rewrite phases_app | rewrite phases_cons | rewrite phases_nil
                | rewrite phases_poll by assumption ];
          cbn [phaseOf app]).

(** ** Properties of the poller *)

Section Poller.
Context {R : Remote}.
Implicit Types (m : Machine R) (conf : StateChangeConf R).

(** The refresh closure keeps [d], adds one lookup to the trace and
    never returns an [Err]: it hands its error back as a value. *)
Lemma VolumeStateRefreshFunc_frame (c : Client R) (id : string) m :
  exists r w,
    Volume_ById R c id (remote m) = (w, r) /\
    VolumeStateRefreshFunc c id m =
      (match r with
       | Failure err => Ok (Failure err)
       | Success (Some v) => Ok (Success (Some v, State v))
       | Success None => Panic
       end,
       mkMachine (rd m) w (trace m ++ [EvById c id r])).
Proof.
  unfold VolumeStateRefreshFunc, client_Volume_ById, call, bind.
  destruct (Volume_ById R c id (remote m)) as [w r].
  exists r, w. split; [reflexivity|].
  destruct r as [[v|]|err]; reflexivity.
Qed.

Lemma pollLoop_frame conf (c : Client R) (id : string) :
  Refresh conf = VolumeStateRefreshFunc c id ->
  forall budget last m o m',
    pollLoop conf budget last m = (o, m') ->
    rd m' = rd m /\
    (exists evs, trace m' = trace m ++ evs /\ forallb isPoll evs = true) /\
    (forall e, o <> Err e).
Proof.
  intros HR. induction budget as [|budget IH]; intros last m o m' H.
  - cbn in H. injection H as <- <-. split; [reflexivity|]. split.
    + exists []. rewrite app_nil_r. auto.
    + discriminate.
  - cbn [pollLoop] in H. unfold bind at 1 in H. rewrite HR in H.
    destruct (VolumeStateRefreshFunc_frame c id m) as (r & w & _ & Hf).
    rewrite Hf in H. clear Hf.
    destruct r as [[v|]|err].
    + destruct (inStates (State v) (Target conf)).
      { injection H as <- <-. cbn. split; [reflexivity|]. split; [|discriminate].
        exists [EvById c id (Success (Some v))]. auto. }
      destruct (inStates (State v) (Pending conf)).
      { unfold bind, sleep, emit in H. cbn in H.
        apply IH in H. cbn in H. destruct H as (Hrd & (evs & Htr & Hq) & Hne).
        split; [exact Hrd|]. split; [|exact Hne].
        exists (EvById c id (Success (Some v)) :: EvSleep (MinTimeout conf) :: evs).
        rewrite Htr, <- !app_assoc. cbn. auto. }
      injection H as <- <-. cbn. split; [reflexivity|]. split; [|discriminate].
      exists [EvById c id (Success (Some v))]. auto.
    + injection H as <- <-. cbn. split; [reflexivity|]. split; [|discriminate].
      exists [EvById c id (Success None)]. auto.
    + injection H as <- <-. cbn. split; [reflexivity|]. split; [|discriminate].
      exists [EvById c id (Failure err)]. auto.
Qed.

(** A convergence keeps [d]; its trace is the begin mark, lookups and
    sleeps, and the end mark unless the refresh closure panicked. *)
Lemma WaitForState_frame conf (c : Client R) (id : string) m o m' :
  Refresh conf = VolumeStateRefreshFunc c id ->
  WaitForState conf m = (o, m') ->
  rd m' = rd m /\
  exists evs, forallb isPoll evs = true /\
    ((exists r, o = Ok r /\
        trace m' = trace m ++ EvWaitBegin (Pending conf) (Target conf) :: evs
                     ++ [EvWaitEnd (waitEnded r)]) \/
     (o = Panic /\
        trace m' = trace m ++ EvWaitBegin (Pending conf) (Target conf) :: evs)).
Proof.
  intros HR H. unfold WaitForState in H.
  unfold bind at 1 in H. unfold sleep at 1 in H.
  destruct (pollLoop conf (pollBudget conf) "" _) as [o1 m1] eqn:HP.
  apply (pollLoop_frame conf c id HR) in HP.
  destruct HP as (Hrd & (evs & Htr & Hq) & Hne). cbn in Hrd, Htr.
  destruct o1 as [r|e|].
  - injection H as <- <-. cbn. split; [exact Hrd|].
    exists (EvSleep (Delay conf) :: evs). split; [exact Hq|].
    left. exists r. split; [reflexivity|].
    rewrite Htr, <- !app_assoc. reflexivity.
  - exfalso. exact (Hne e eq_refl).
  - injection H as <- <-. split; [exact Hrd|].
    exists (EvSleep (Delay conf) :: evs). split; [exact Hq|].
    right. split; [reflexivity|].
    rewrite Htr, <- !app_assoc. reflexivity.
Qed.

(** A loop that returns a snapshot has polled to its target. *)
Lemma pollLoop_success conf c id :
  Refresh conf = VolumeStateRefreshFunc c id ->
  forall budget last m snapshot m',
    pollLoop conf budget last m = (Ok (Success snapshot), m') ->
    exists polls,
      trace m' = trace m ++ polls /\
      polledTo c id (Pending conf) (Target conf) (MinTimeout conf) polls.
Proof.
  intros HR. induction budget as [|budget IH]; intros last m snapshot m' H.
  - cbn in H. discriminate H.
  - cbn [pollLoop] in H. rewrite bind_run, HR in H.
    destruct (VolumeStateRefreshFunc_frame c id m) as (r & w & _ & Hf).
    rewrite Hf in H. clear Hf.
    destruct r as [[v|]|err0]; try discriminate H.
    destruct (inStates (State v) (Target conf)) eqn:Ht.
    { injection H as _ <-. cbn [trace]. eexists. split; [reflexivity|].
      cbn. auto. }
    destruct (inStates (State v) (Pending conf)) eqn:Hp; [|discriminate H].
    rewrite bind_run in H. unfold sleep, emit in H. cbn [rd remote trace] in H.
    apply IH in H. cbn [trace] in H. destruct H as (polls & -> & Hpolls).
    rewrite <- !app_assoc. eexists. split; [reflexivity|].
    cbn [app polledTo]. auto 10.
Qed.

(** A convergence that returns a snapshot: begin mark, delay, polls to
    the target, end mark. *)
Lemma WaitForState_success conf c id m snapshot m' :
  Refresh conf = VolumeStateRefreshFunc c id ->
  WaitForState conf m = (Ok (Success snapshot), m') ->
  rd m' = rd m /\
  exists polls,
    trace m' = trace m ++ EvWaitBegin (Pending conf) (Target conf)
                 :: EvSleep (Delay conf) :: polls ++ [EvWaitEnd true] /\
    polledTo c id (Pending conf) (Target conf) (MinTimeout conf) polls.
Proof.
  intros HR H.
  split; [exact (proj1 (WaitForState_frame conf c id m _ m' HR H))|].
  unfold WaitForState in H. rewrite bind_run in H. unfold sleep at 1 in H.
  destruct (pollLoop conf (pollBudget conf) "" _) as [o1 m1] eqn:HP.
  destruct o1 as [[s1|e1]|e|]; try discriminate H.
  injection H as _ <-.
  destruct (pollLoop_success conf c id HR _ _ _ _ _ HP) as (polls & Htr & Hpolls).
  unfold emit in *. cbn [rd remote trace] in *.
  exists polls. split; [|exact Hpolls].
  rewrite Htr, <- !app_assoc. reflexivity.
Qed.

End Poller.

(** ** Read *)

Section Read.
Context {R : Remote} (removed : string -> bool).
Implicit Types (m : Machine R) (d : ResourceData).

(** The two outbound calls of a read and what each answer leads to. *)
Lemma read_run m :
  exists w1 r1,
    EnvironmentClient R (Get (rd m) "environment_id") (remote m) = (w1, r1) /\
    match r1 with
    | Failure e =>
        resourceRancherVolumeRead removed m =
          (Err e, mkMachine (rd m) w1
                    (trace m ++ [EvEnvironmentClient (Get (rd m) "environment_id") r1]))
    | Success c =>
        exists w2 r2,
          Volume_ById R c (rd_id (rd m)) w1 = (w2, r2) /\
          resourceRancherVolumeRead removed m =
            (match r2 with Success _ => Ok tt | Failure e => Err e end,
             mkMachine (match r2 with
                        | Success volume => refreshed removed (rd m) volume
                        | Failure _ => rd m
                        end) w2
               ((trace m ++ [EvEnvironmentClient (Get (rd m) "environment_id") r1])
                  ++ [EvById c (rd_id (rd m)) r2]))
    end.
Proof.
  unfold resourceRancherVolumeRead.
  go_pure. go_call w1 r1. exists w1, r1. split; [reflexivity|].
  destruct r1 as [c|e]; cbn [check]; go_pure; [|reflexivity].
  go_call w2 r2. exists w2, r2. split; [reflexivity|].
  destruct r2 as [[v|]|e]; cbn [check refreshed]; go_pure; try reflexivity.
  destruct (removed (State v)); [reflexivity|].
  go_pure. reflexivity.
Qed.

End Read.

(** ** Delete *)

Section Delete.
Context {R : Remote}.
Implicit Types (d : ResourceData) (w : World R).

(** Every way a delete can go.  Either it returns nil, having gone
    through [deletePhases], and [d] has lost its id; or it does not,
    having stopped at one of [deleteStopped], and [d] is untouched. *)
Lemma delete_run d w :
  (fst (run resourceRancherVolumeDelete d w) = Ok tt /\
   phases (trace (snd (run resourceRancherVolumeDelete d w))) = deletePhases /\
   rd (snd (run resourceRancherVolumeDelete d w)) = mkResourceData "" (rd_attrs d)) \/
  (fst (run resourceRancherVolumeDelete d w) <> Ok tt /\
   In (phases (trace (snd (run resourceRancherVolumeDelete d w)))) deleteStopped /\
   rd (snd (run resourceRancherVolumeDelete d w)) = d).
Proof.
  unfold run, resourceRancherVolumeDelete.
  go_pure. go_call w1 r1.
  destruct r1 as [c|e]; cbn [check checkWrap]; go_pure.
  2:{ right. cbn. auto. }
  go_call w2 r2.
  destruct r2 as [v|e]; cbn [check checkWrap]; go_pure.
  2:{ right. cbn. auto. }
  rewrite bind_run.
  destruct (WaitForState _ _) as [o3 m3] eqn:H3.
  apply (WaitForState_frame _ c (rd_id d)) in H3; [|reflexivity].
  cbn [rd trace Pending Target drainStateConf] in H3.
  destruct H3 as (Hrd3 & evs3 & Hq3 & [(r3 & -> & Htr3)|[-> Htr3]]).
  2:{ right. cbn [fst snd]. rewrite Htr3, Hrd3. phases_norm. cbn. auto 10. }
  destruct r3 as [v3|e]; cbn [check checkWrap waitEnded] in *; go_pure.
  2:{ right. rewrite Htr3, Hrd3. phases_norm. cbn. auto 10. }
  go_call w4 r4.
  destruct r4 as [[v4|]|e]; cbn [check checkWrap]; go_pure.
  2:{ right. unfold client_Volume_ActionRemove. go_pure.
      rewrite Htr3, Hrd3. phases_norm. cbn. auto 10. }
  2:{ right. rewrite Htr3, Hrd3. phases_norm. cbn. auto 10. }
  go_call w5 r5.
  destruct r5 as [v5|e]; cbn [check checkWrap]; go_pure.
  2:{ right. rewrite Htr3, Hrd3. phases_norm. cbn. auto 10. }
  rewrite bind_run.
  destruct (WaitForState _ _) as [o6 m6] eqn:H6.
  apply (WaitForState_frame _ c (rd_id d)) in H6; [|reflexivity].
  cbn [rd trace Pending Target removeStateConf] in H6.
  destruct H6 as (Hrd6 & evs6 & Hq6 & [(r6 & -> & Htr6)|[-> Htr6]]).
  2:{ right. cbn [fst snd]. rewrite Htr6, Htr3, Hrd6, Hrd3. phases_norm. cbn. auto 10. }
  destruct r6 as [v6|e]; cbn [check checkWrap waitEnded] in *; go_pure.
  2:{ right. rewrite Htr6, Htr3, Hrd6, Hrd3. phases_norm. cbn. auto 10. }
  left. unfold d_SetId. cbn [fst snd rd trace].
  rewrite Htr6, Htr3, Hrd6, Hrd3. phases_norm. auto.
Qed.

(** A delete whose every step succeeds: what it asks of the remote side,
    in order, and what it leaves. *)
Lemma delete_succeeds d w w1 c w2 v0 s3 m3 w4 v4 w5 rv s6 m6 :
  EnvironmentClient R (Get d "environment_id") w = (w1, Success c) ->
  Volume_ById R c (rd_id d) w1 = (w2, Success v0) ->
  WaitForState (drainStateConf c (rd_id d))
    (mkMachine d w2 [EvEnvironmentClient (Get d "environment_id") (Success c);
                     EvById c (rd_id d) (Success v0)]) = (Ok (Success s3), m3) ->
  Volume_ById R c (rd_id d) (remote m3) = (w4, Success (Some v4)) ->
  Volume_ActionRemove R c v4 w4 = (w5, Success rv) ->
  WaitForState (removeStateConf c (rd_id d))
    (mkMachine d w5 (trace m3 ++ [EvById c (rd_id d) (Success (Some v4));
                                   EvActionRemove c v4 (Success rv)])) = (Ok (Success s6), m6) ->
  run resourceRancherVolumeDelete d w =
    (Ok tt, mkMachine (mkResourceData "" (rd_attrs d)) (remote m6) (trace m6)).
Proof.
  intros H1 H2 H3 H4 H5 H6.
  pose proof (WaitForState_frame (drainStateConf c (rd_id d)) c (rd_id d) _ _ _ eq_refl H3) as [Hrd3 _].
  pose proof (WaitForState_frame (removeStateConf c (rd_id d)) c (rd_id d) _ _ _ eq_refl H6) as [Hrd6 _].
  cbn [rd] in Hrd3, Hrd6.
  unfold run, resourceRancherVolumeDelete.
  go_pure. go_known H1. cbn [check checkWrap]. go_pure.
  go_known H2. cbn [check checkWrap]. go_pure.
  rewrite bind_run. cbn [app]. rewrite H3. cbn [check checkWrap]. go_pure.
  go_known H4. cbn [check checkWrap]. go_pure.
  go_known H5. cbn [check checkWrap]. go_pure.
  rewrite bind_run, <- app_assoc. cbn [app]. rewrite Hrd3, H6. cbn [check checkWrap]. go_pure.
  unfold d_SetId. rewrite Hrd6. reflexivity.
Qed.

(** The trace of a delete that returns nil. *)
Lemma delete_ok d w :
  fst (run resourceRancherVolumeDelete d w) = Ok tt ->
  exists c v0 drained v4 rv gone,
    trace (snd (run resourceRancherVolumeDelete d w)) =
      [EvEnvironmentClient (Get d "environment_id") (Success c);
       EvById c (rd_id d) (Success v0)]
      ++ (EvWaitBegin ["active"; "deactivating"] ["inactive"; "detached"]
            :: EvSleep (1 * Second) :: drained ++ [EvWaitEnd true])
      ++ [EvById c (rd_id d) (Success (Some v4));
          EvActionRemove c v4 (Success rv)]
      ++ (EvWaitBegin ["inactive"; "detached"; "removed"; "removing"] ["removed"]
            :: EvSleep (1 * Second) :: gone ++ [EvWaitEnd true]) /\
    polledTo c (rd_id d) ["active"; "deactivating"] ["inactive"; "detached"]
      (3 * Second) drained /\
    polledTo c (rd_id d) ["inactive"; "detached"; "removed"; "removing"] ["removed"]
      (3 * Second) gone.
Proof.
  unfold run, resourceRancherVolumeDelete.
  go_pure. go_call w1 r1.
  destruct r1 as [c|e]; cbn [check checkWrap]; go_pure; [|discriminate].
  go_call w2 r2.
  destruct r2 as [v0|e]; cbn [check checkWrap]; go_pure; [|discriminate].
  rewrite bind_run.
  destruct (WaitForState _ _) as [o3 m3] eqn:H3.
  destruct o3 as [[s3|e]|e|]; cbn [check checkWrap]; go_pure; try discriminate.
  apply (WaitForState_success _ c (rd_id d)) in H3; [|reflexivity].
  cbn [rd trace Pending Target Delay MinTimeout drainStateConf] in H3.
  destruct H3 as (Hrd3 & drained & Htr3 & Hdrained).
  go_call w4 r4.
  destruct r4 as [[v4|]|e]; cbn [check checkWrap]; go_pure; try discriminate.
  go_call w5 r5.
  destruct r5 as [rv|e]; cbn [check checkWrap]; go_pure; [|discriminate].
  rewrite bind_run.
  destruct (WaitForState _ _) as [o6 m6] eqn:H6.
  destruct o6 as [[s6|e]|e|]; cbn [check checkWrap]; go_pure; try discriminate.
  apply (WaitForState_success _ c (rd_id d)) in H6; [|reflexivity].
  cbn [rd trace Pending Target Delay MinTimeout removeStateConf] in H6.
  destruct H6 as (Hrd6 & gone & Htr6 & Hgone).
  intros _. exists c, v0, drained, v4, rv, gone.
  split; [|split; assumption].
  unfold d_SetId. cbn [snd trace]. rewrite Htr6, Htr3.
  rewrite <- !app_assoc. reflexivity.
Qed.

Lemma deletePhases_not_stopped : ~ In deletePhases deleteStopped.
Proof. cbn. intuition discriminate. Qed.

End Delete.

(** C4.  A delete is two convergences with one remove call between
    them.  When the client resolves, the first lookup answers, the drain
    convergence (pending {active, deactivating}, target {inactive,
    detached}) returns a snapshot, the lookup after it finds a volume,
    the remove call on that volume succeeds and the removal convergence
    (pending {inactive, detached, removed, removing}, target {removed})
    returns a snapshot, the delete makes exactly these requests in this
    order, returns nil and leaves the declared id empty.  Conversely a
    delete that returns nil has this trace: client resolution and first
    lookup; the drain convergence, whose polls by the declared id each
    found the volume, in a pending state and followed by a sleep of
    three seconds until the last found it in a target state; the lookup
    before the remove call and the remove call on the volume it found;
    the removal convergence, polled likewise.  Every delete goes through
    these steps in this order and stops early only at a failing step; it
    never makes a second remove call, and it makes the remove call only
    after the drain convergence has succeeded. *)
Theorem delete_two_phases {R : Remote} (d : ResourceData) (w : World R) :
  (forall w1 c w2 v0 s3 m3 w4 v4 w5 rv s6 m6,
     EnvironmentClient R (Get d "environment_id") w = (w1, Success c) ->
     Volume_ById R c (rd_id d) w1 = (w2, Success v0) ->
     WaitForState (drainStateConf c (rd_id d))
       (mkMachine d w2 [EvEnvironmentClient (Get d "environment_id") (Success c);
                        EvById c (rd_id d) (Success v0)]) = (Ok (Success s3), m3) ->
     Volume_ById R c (rd_id d) (remote m3) = (w4, Success (Some v4)) ->
     Volume_ActionRemove R c v4 w4 = (w5, Success rv) ->
     WaitForState (removeStateConf c (rd_id d))
       (mkMachine d w5 (trace m3 ++ [EvById c (rd_id d) (Success (Some v4));
                                      EvActionRemove c v4 (Success rv)]))
       = (Ok (Success s6), m6) ->
     run resourceRancherVolumeDelete d w =
       (Ok tt, mkMachine (mkResourceData "" (rd_attrs d)) (remote m6) (trace m6))) /\
  (fst (run resourceRancherVolumeDelete d w) = Ok tt ->
   exists c v0 drained v4 rv gone,
     trace (snd (run resourceRancherVolumeDelete d w)) =
       [EvEnvironmentClient (Get d "environment_id") (Success c);
        EvById c (rd_id d) (Success v0)]
       ++ (EvWaitBegin ["active"; "deactivating"] ["inactive"; "detached"]
             :: EvSleep (1 * Second) :: drained ++ [EvWaitEnd true])
       ++ [EvById c (rd_id d) (Success (Some v4));
           EvActionRemove c v4 (Success rv)]
       ++ (EvWaitBegin ["inactive"; "detached"; "removed"; "removing"] ["removed"]
             :: EvSleep (1 * Second) :: gone ++ [EvWaitEnd true]) /\
     polledTo c (rd_id d) ["active"; "deactivating"] ["inactive"; "detached"]
       (3 * Second) drained /\
     polledTo c (rd_id d) ["inactive"; "detached"; "removed"; "removing"] ["removed"]
       (3 * Second) gone /\
     rd (snd (run resourceRancherVolumeDelete d w)) = mkResourceData "" (rd_attrs d)) /\
  In (phases (trace (snd (run resourceRancherVolumeDelete d w))))
     (deletePhases :: deleteStopped) /\
  (removeCalls (trace (snd (run resourceRancherVolumeDelete d w))) <= 1)%nat /\
  (fst (run resourceRancherVolumeDelete d w) = Ok tt <->
   phases (trace (snd (run resourceRancherVolumeDelete d w))) =
     [PhaseBegin ["active"; "deactivating"] ["inactive"; "detached"];
      PhaseEnd true;
      PhaseRemove;
      PhaseBegin ["inactive"; "detached"; "removed"; "removing"] ["removed"];
      PhaseEnd true]) /\
  (fst (run resourceRancherVolumeDelete d w) = Ok tt ->
   removeCalls (trace (snd (run resourceRancherVolumeDelete d w))) = 1%nat /\
   rd (snd (run resourceRancherVolumeDelete d w)) = mkResourceData "" (rd_attrs d)).
Proof.
  split; [intros *; apply delete_succeeds|].
  rewrite removeCalls_phases.
  destruct (delete_run d w) as [(Hok & Hph & Hrd)|(Hno & Hph & Hrd)].
  - split.
    { intros _. destruct (delete_ok d w Hok) as (c & v0 & drained & v4 & rv & gone & H).
      exists c, v0, drained, v4, rv, gone. tauto. }
    split; [left; symmetry; exact Hph|].
    split; [rewrite Hph; cbn; lia|].
    split; [split; [intros _; exact Hph|intros _; exact Hok]|].
    intros _. split; [rewrite Hph; reflexivity|exact Hrd].
  - split; [intros Hok; contradiction|].
    split; [right; exact Hph|].
    split.
    { unfold deleteStopped in Hph. cbn [In] in Hph.
      decompose [or] Hph; try contradiction;
        match goal with H : _ = phases _ |- _ => rewrite <- H end; cbn; lia. }
    split; [|intros Hok; contradiction].
    split; [intros Hok; contradiction|].
    intros Heq. exfalso. apply deletePhases_not_stopped.
    change deletePhases with
      [PhaseBegin ["active"; "deactivating"] ["inactive"; "detached"];
       PhaseEnd true; PhaseRemove;
       PhaseBegin ["inactive"; "detached"; "removed"; "removing"] ["removed"];
       PhaseEnd true].
    rewrite <- Heq. exact Hph.
Qed.

(** The scenario of the design: an active volume is drained through
    deactivating to inactive, removed once, and seen removing then
    removed; the script of lookups is used up and the declared id is
    empty. *)
Lemma delete_two_phases_witness :
  let c : Client Scripted.remote := Scripted.Scoped "env1" in
  run (R:=Scripted.remote) resourceRancherVolumeDelete
    (Scripted.declared "vol-123")
    (Scripted.script (map Scripted.seen
       ["active"; "active"; "deactivating"; "inactive"; "inactive";
        "removing"; "removed"])) =
  (Ok tt,
   mkMachine (R:=Scripted.remote)
     (mkResourceData "" (rd_attrs (Scripted.declared "vol-123")))
     (Scripted.script [])
     [EvEnvironmentClient "env1" (Success c);
      EvById c "vol-123" (Scripted.seen "active");
      EvWaitBegin ["active"; "deactivating"] ["inactive"; "detached"];
      EvSleep 1000;
      EvById c "vol-123" (Scripted.seen "active");
      EvSleep 3000;
      EvById c "vol-123" (Scripted.seen "deactivating");
      EvSleep 3000;
      EvById c "vol-123" (Scripted.seen "inactive");
      EvWaitEnd true;
      EvById c "vol-123" (Scripted.seen "inactive");
      EvActionRemove c (Scripted.vol "inactive")
        (Success (Scripted.vol "removing"));
      EvWaitBegin ["inactive"; "detached"; "removed"; "removing"] ["removed"];
      EvSleep 1000;
      EvById c "vol-123" (Scripted.seen "removing");
      EvSleep 3000;
      EvById c "vol-123" (Scripted.seen "removed");
      EvWaitEnd true]).
Proof.
  intros c. etransitivity.
  - eapply (proj1 (delete_two_phases (R:=Scripted.remote) _ _)); vm_compute; reflexivity.
  - vm_compute. reflexivity.
Defined.

(** ** Create *)

Section Create.
Context {R : Remote} (removed : string -> bool).
Implicit Types (d : ResourceData) (w : World R).

Lemma create_client_fails d w w1 e :
  EnvironmentClient R (Get d "environment_id") w = (w1, Failure e) ->
  run (resourceRancherVolumeCreate removed) d w =
    (Err e, mkMachine d w1 [EvEnvironmentClient (Get d "environment_id") (Failure e)]).
Proof.
  intros H1. unfold run, resourceRancherVolumeCreate.
  go_pure. go_known H1.
  reflexivity.
Qed.

Lemma create_call_fails d w w1 c w2 e :
  EnvironmentClient R (Get d "environment_id") w = (w1, Success c) ->
  Volume_Create R c (declaredVolume d) w1 = (w2, Failure e) ->
  run (resourceRancherVolumeCreate removed) d w =
    (Err e, mkMachine d w2 [EvEnvironmentClient (Get d "environment_id") (Success c);
                            EvCreate c (declaredVolume d) (Failure e)]).
Proof.
  intros H1 H2. unfold run, resourceRancherVolumeCreate.
  go_pure. go_known H1.
  cbn [check]. go_pure. fold (declaredVolume d). go_known H2.
  reflexivity.
Qed.

Lemma create_wait_fails d w w1 c w2 v o m3 :
  EnvironmentClient R (Get d "environment_id") w = (w1, Success c) ->
  Volume_Create R c (declaredVolume d) w1 = (w2, Success v) ->
  WaitForState (createStateConf c (Id v))
    (mkMachine d w2 [EvEnvironmentClient (Get d "environment_id") (Success c);
                     EvCreate c (declaredVolume d) (Success v)]) = (o, m3) ->
  (forall snapshot, o <> Ok (Success snapshot)) ->
  fst (run (resourceRancherVolumeCreate removed) d w) <> Ok tt /\
  snd (run (resourceRancherVolumeCreate removed) d w) = m3 /\
  rd m3 = d.
Proof.
  intros H1 H2 H3 Hno. unfold run, resourceRancherVolumeCreate.
  go_pure. go_known H1.
  cbn [check]. go_pure. fold (declaredVolume d). go_known H2.
  cbn [check app]. go_pure. rewrite bind_run, H3.
  pose proof (WaitForState_frame (createStateConf c (Id v)) c (Id v) _ _ _ eq_refl H3)
    as [Hrd _].
  cbn [rd] in Hrd.
  destruct o as [[snapshot|e]|e|].
  - exfalso. exact (Hno snapshot eq_refl).
  - cbn [checkWrap]. go_pure. split; [discriminate|]. auto.
  - cbn. split; [discriminate|]. auto.
  - cbn. split; [discriminate|]. auto.
Qed.

End Create.

(** C5.  A create that fails at client resolution, at the create call or
    in the convergence after it returns that failure and leaves [d], and
    so its id, as it was; a delete that does not return nil leaves [d],
    and so its id, as it was. *)
Theorem failed_create_or_delete_keeps_id {R : Remote} (removed : string -> bool)
    (d : ResourceData) (w : World R) :
  (forall w1 e,
     EnvironmentClient R (Get d "environment_id") w = (w1, Failure e) ->
     fst (run (resourceRancherVolumeCreate removed) d w) = Err e /\
     rd (snd (run (resourceRancherVolumeCreate removed) d w)) = d) /\
  (forall w1 c w2 e,
     EnvironmentClient R (Get d "environment_id") w = (w1, Success c) ->
     Volume_Create R c (declaredVolume d) w1 = (w2, Failure e) ->
     fst (run (resourceRancherVolumeCreate removed) d w) = Err e /\
     rd (snd (run (resourceRancherVolumeCreate removed) d w)) = d) /\
  (forall w1 c w2 v o m3,
     EnvironmentClient R (Get d "environment_id") w = (w1, Success c) ->
     Volume_Create R c (declaredVolume d) w1 = (w2, Success v) ->
     WaitForState (createStateConf c (Id v))
       (mkMachine d w2 [EvEnvironmentClient (Get d "environment_id") (Success c);
                        EvCreate c (declaredVolume d) (Success v)]) = (o, m3) ->
     (forall snapshot, o <> Ok (Success snapshot)) ->
     fst (run (resourceRancherVolumeCreate removed) d w) <> Ok tt /\
     rd (snd (run (resourceRancherVolumeCreate removed) d w)) = d) /\
  (fst (run resourceRancherVolumeDelete d w) <> Ok tt ->
   rd (snd (run resourceRancherVolumeDelete d w)) = d).
Proof.
  split; [|split; [|split]].
  - intros w1 e H1. rewrite (create_client_fails removed d w w1 e H1). auto.
  - intros w1 c w2 e H1 H2. rewrite (create_call_fails removed d w w1 c w2 e H1 H2). auto.
  - intros w1 c w2 v o m3 H1 H2 H3 Hno.
    destruct (create_wait_fails removed d w w1 c w2 v o m3 H1 H2 H3 Hno) as (Hf & Hs & Hrd).
    split; [exact Hf|]. rewrite Hs. exact Hrd.
  - intros Hno. destruct (delete_run d w) as [(Hok & _)|(_ & _ & Hrd)]; [contradiction|exact Hrd].
Qed.

(** Four failing runs: no client; the create call refused; a volume seen
    active while create waits for inactive; a delete whose first lookup
    fails. *)
Lemma failed_create_or_delete_keeps_id_witness :
  let d := Scripted.declared "" in
  let create := resourceRancherVolumeCreate (R:=Scripted.remote) Scripted.removed in
  rd (snd (run create d
             (Scripted.mkScript (Failure "no client") (Failure "refused") []
                (Failure "refused") (Failure "refused")))) = d /\
  rd (snd (run create d
             (Scripted.mkScript (Success tt) (Failure "refused") []
                (Failure "refused") (Failure "refused")))) = d /\
  rd (snd (run create d (Scripted.script [Scripted.seen "active"]))) = d /\
  rd (snd (run (R:=Scripted.remote) resourceRancherVolumeDelete
             (Scripted.declared "vol-123") (Scripted.script []))) =
    Scripted.declared "vol-123".
Proof.
  cbv zeta. split; [|split; [|split]].
  - eapply (proj1 (failed_create_or_delete_keeps_id (R:=Scripted.remote) _ _ _)).
    vm_compute. reflexivity.
  - eapply (proj1 (proj2 (failed_create_or_delete_keeps_id (R:=Scripted.remote) _ _ _))).
    + vm_compute. reflexivity.
    + vm_compute. reflexivity.
  - eapply (proj1 (proj2 (proj2 (failed_create_or_delete_keeps_id (R:=Scripted.remote) _ _ _)))).
    + vm_compute. reflexivity.
    + vm_compute. reflexivity.
    + vm_compute. reflexivity.
    + intros snapshot. discriminate.
  - apply (proj2 (proj2 (proj2 (failed_create_or_delete_keeps_id (R:=Scripted.remote)
             Scripted.removed _ _)))).
    vm_compute. discriminate.
Defined.

(** Past the three points of C5 the id is assigned: a create whose
    convergence has succeeded and whose closing read fails returns that
    error with the new id in place. *)
Remark create_closing_read_fails :
  let out := run (resourceRancherVolumeCreate (R:=Scripted.remote) Scripted.removed)
               (Scripted.declared "") (Scripted.script [Scripted.seen "inactive"]) in
  fst out = Err "script exhausted" /\ rd_id (rd (snd out)) = "vol-123".
Proof. vm_compute. split; reflexivity. Qed.

Section ReadOutcome.
Context {R : Remote} (removed : string -> bool).
Implicit Types (d : ResourceData) (w : World R).

(** A read whose two calls succeed returns nil and leaves
    [refreshed]. *)
Lemma read_found d w w1 c w2 volume :
  EnvironmentClient R (Get d "environment_id") w = (w1, Success c) ->
  Volume_ById R c (rd_id d) w1 = (w2, Success volume) ->
  run (resourceRancherVolumeRead removed) d w =
    (Ok tt,
     mkMachine (refreshed removed d volume) w2
       [EvEnvironmentClient (Get d "environment_id") (Success c);
        EvById c (rd_id d) (Success volume)]).
Proof.
  intros H1 H2. unfold run.
  destruct (read_run removed (mkMachine d w [])) as (w1' & r1 & E1 & H).
  cbn [rd remote trace] in *. rewrite H1 in E1. injection E1 as <- <-.
  destruct H as (w2' & r2 & E2 & H). rewrite H2 in E2. injection E2 as <- <-.
  exact H.
Qed.

Lemma refreshed_attrs d v :
  removed (State v) = false ->
  Get (refreshed removed d (Some v)) "name" = Name v /\
  Get (refreshed removed d (Some v)) "description" = Description v /\
  Get (refreshed removed d (Some v)) "driver" = Driver v /\
  Get (refreshed removed d (Some v)) "environment_id" = AccountId v /\
  (forall key,
     ~ In key ["name"; "description"; "driver"; "environment_id"] ->
     rd_attrs (refreshed removed d (Some v)) !! key = rd_attrs d !! key).
Proof.
  intros Hr. unfold Get, refreshed. rewrite Hr. cbn [rd_attrs].
  repeat split; try (by simplify_map_eq).
  intros key Hk. cbn in Hk.
  rewrite !lookup_insert_ne; [reflexivity|..]; intros <-; tauto.
Qed.

End ReadOutcome.

(** C6.  A read whose lookup finds no volume, or a volume whose state is
    a removed state, empties the declared id, leaves the other
    attributes and returns nil.  A read whose lookup finds a volume that
    is not removed returns nil, keeps the id and writes the volume's
    name, description, driver and account id under [name],
    [description], [driver] and [environment_id], and nothing else. *)
Theorem read_clears_or_refreshes {R : Remote} (removed : string -> bool)
    (d : ResourceData) (w w1 w2 : World R) (c : Client R) (volume : option Volume) :
  EnvironmentClient R (Get d "environment_id") w = (w1, Success c) ->
  Volume_ById R c (rd_id d) w1 = (w2, Success volume) ->
  fst (run (resourceRancherVolumeRead removed) d w) = Ok tt /\
  (volume = None ->
   rd (snd (run (resourceRancherVolumeRead removed) d w)) =
     mkResourceData "" (rd_attrs d)) /\
  (forall v, volume = Some v -> removed (State v) = true ->
   rd (snd (run (resourceRancherVolumeRead removed) d w)) =
     mkResourceData "" (rd_attrs d)) /\
  (forall v, volume = Some v -> removed (State v) = false ->
   let d' := rd (snd (run (resourceRancherVolumeRead removed) d w)) in
   rd_id d' = rd_id d /\
   Get d' "name" = Name v /\
   Get d' "description" = Description v /\
   Get d' "driver" = Driver v /\
   Get d' "environment_id" = AccountId v /\
   (forall key,
      ~ In key ["name"; "description"; "driver"; "environment_id"] ->
      rd_attrs d' !! key = rd_attrs d !! key)).
Proof.
  intros H1 H2. rewrite (read_found removed d w w1 c w2 volume H1 H2).
  cbn [fst snd rd]. split; [reflexivity|]. split; [|split].
  - intros ->. reflexivity.
  - intros v -> Hr. cbn [refreshed]. rewrite Hr. reflexivity.
  - intros v -> Hr. cbv zeta. split.
    + cbn [refreshed]. rewrite Hr. reflexivity.
    + apply refreshed_attrs. exact Hr.
Qed.

(** A volume seen active, read into a declaration that named it
    otherwise. *)
Lemma read_clears_or_refreshes_witness :
  let d := mkResourceData "vol-123" (<["name" := "old"]> (<["environment_id" := "env1"]> ∅)) in
  let d' := rd (snd (run (resourceRancherVolumeRead (R:=Scripted.remote) Scripted.removed)
                       d (Scripted.script [Scripted.seen "active"]))) in
  rd_id d' = "vol-123" /\ Get d' "name" = "foo" /\ Get d' "driver" = "rancher-nfs".
Proof.
  cbv zeta.
  pose proof (read_clears_or_refreshes (R:=Scripted.remote) Scripted.removed
    (mkResourceData "vol-123" (<["name" := "old"]> (<["environment_id" := "env1"]> ∅)))
    (Scripted.script [Scripted.seen "active"])
    (Scripted.script [Scripted.seen "active"])
    (Scripted.script [])
    (Scripted.Scoped "env1") (Some (Scripted.vol "active")) eq_refl eq_refl) as H.
  destruct H as (_ & _ & _ & H).
  destruct (H (Scripted.vol "active") eq_refl eq_refl) as (Hid & Hn & _ & Hd & _).
  exact (conj Hid (conj Hn Hd)).
Defined.

Section ReadTwice.
Context {R : Remote} (removed : string -> bool).
Implicit Types (d : ResourceData) (w : World R).

(** Refreshing from the same lookup a second time changes nothing. *)
Lemma refreshed_again d volume :
  refreshed removed (refreshed removed d volume) volume = refreshed removed d volume.
Proof.
  destruct volume as [v|]; cbn [refreshed]; [|reflexivity].
  destruct (removed (State v)); [reflexivity|].
  cbn [rd_id rd_attrs]. f_equal.
  apply map_eq. intros key. rewrite !lookup_insert.
  repeat case_decide; reflexivity.
Qed.

(** The lookups of one read, from what its calls answer. *)
Lemma read_lookups d w :
  exists w1 r1,
    EnvironmentClient R (Get d "environment_id") w = (w1, r1) /\
    match r1 with
    | Failure _ =>
        lookupResults (trace (snd (run (resourceRancherVolumeRead removed) d w))) = [] /\
        rd (snd (run (resourceRancherVolumeRead removed) d w)) = d
    | Success c =>
        exists w2 r2,
          Volume_ById R c (rd_id d) w1 = (w2, r2) /\
          lookupResults (trace (snd (run (resourceRancherVolumeRead removed) d w))) = [r2] /\
          rd (snd (run (resourceRancherVolumeRead removed) d w)) =
            match r2 with
            | Success volume => refreshed removed d volume
            | Failure _ => d
            end
    end.
Proof.
  unfold run.
  destruct (read_run removed (mkMachine d w [])) as (w1 & r1 & E1 & H).
  cbn [rd remote trace] in *. exists w1, r1. split; [exact E1|].
  destruct r1 as [c|e].
  - destruct H as (w2 & r2 & E2 & ->). exists w2, r2. split; [exact E2|].
    cbn [snd trace rd]. split; reflexivity.
  - rewrite H. cbn [snd trace rd]. split; reflexivity.
Qed.

End ReadTwice.

(** C8.  Two reads in a row whose lookups answer the same leave the same
    declared state, id and attribute bag, after the second as after the
    first. *)
Theorem read_twice_same_bag {R : Remote} (removed : string -> bool)
    (d : ResourceData) (w : World R) :
  let first := snd (run (resourceRancherVolumeRead removed) d w) in
  let second := snd (run (resourceRancherVolumeRead removed) (rd first) (remote first)) in
  lookupResults (trace first) = lookupResults (trace second) ->
  rd second = rd first.
Proof.
  cbv zeta.
  set (first := snd (run (resourceRancherVolumeRead removed) d w)).
  destruct (read_lookups removed d w) as (w1 & r1 & _ & H1).
  destruct (read_lookups removed (rd first) (remote first)) as (w3 & r3 & _ & H3).
  fold first in H1.
  destruct r1 as [c1|e1].
  - destruct H1 as (w2 & r2 & _ & Hl1 & Hrd1). rewrite Hl1.
    destruct r3 as [c3|e3].
    + destruct H3 as (w4 & r4 & _ & Hl3 & Hrd3). rewrite Hl3, Hrd3.
      intros [= <-]. destruct r2 as [volume|e]; [|reflexivity].
      rewrite Hrd1. apply refreshed_again.
    + destruct H3 as [Hl3 Hrd3]. rewrite Hl3. discriminate.
  - destruct H1 as [Hl1 Hrd1]. rewrite Hl1.
    destruct r3 as [c3|e3].
    + destruct H3 as (w4 & r4 & _ & Hl3 & Hrd3). rewrite Hl3. discriminate.
    + destruct H3 as [Hl3 Hrd3]. intros _. exact Hrd3.
Qed.

(** The same active volume seen by two reads in a row. *)
Lemma read_twice_same_bag_witness :
  let read := resourceRancherVolumeRead (R:=Scripted.remote) Scripted.removed in
  let first := snd (run read (Scripted.declared "vol-123")
                      (Scripted.script [Scripted.seen "active"; Scripted.seen "active"])) in
  rd (snd (run read (rd first) (remote first))) = rd first.
Proof.
  cbv zeta.
  apply (read_twice_same_bag (R:=Scripted.remote) Scripted.removed
           (Scripted.declared "vol-123")
           (Scripted.script [Scripted.seen "active"; Scripted.seen "active"])).
  vm_compute. reflexivity.
Defined.

(** ** Update *)

Section Update.
Context {R : Remote} (removed : string -> bool).
Implicit Types (d : ResourceData) (w : World R).

(** An update that finds its volume sends it back with the declared
    name and description, drops the answer and goes on to read. *)
Lemma update_found d w w1 c w2 v :
  EnvironmentClient R (Get d "environment_id") w = (w1, Success c) ->
  Volume_ById R c (rd_id d) w1 = (w2, Success (Some v)) ->
  run (resourceRancherVolumeUpdate removed) d w =
    resourceRancherVolumeRead removed
      (mkMachine d (fst (Volume_Update R c (patched d v) (patched d v) w2))
         [EvEnvironmentClient (Get d "environment_id") (Success c);
          EvById c (rd_id d) (Success (Some v));
          EvUpdate c (patched d v) (patched d v)
            (snd (Volume_Update R c (patched d v) (patched d v) w2))]).
Proof.
  intros H1 H2. unfold run, resourceRancherVolumeUpdate.
  go_pure. go_known H1. cbn [check]. go_pure. go_known H2. cbn [check]. go_pure.
  cbn [deref]. go_pure. fold (patched d v). rewrite bind_call.
  reflexivity.
Qed.

(** The calls of a read change nothing on the remote side. *)
Lemma read_no_mutation (m : Machine R) :
  exists evs,
    trace (snd (resourceRancherVolumeRead removed m)) = trace m ++ evs /\
    forallb (fun e => negb (isMutation e)) evs = true /\
    lookupResults (trace (snd (resourceRancherVolumeRead removed m))) =
      lookupResults (trace m) ++ lookupResults evs.
Proof.
  destruct (read_run removed m) as (w1 & [c|e] & _ & H).
  - destruct H as (w2 & r2 & _ & ->). cbn [snd trace]. rewrite <- app_assoc.
    eexists. split; [reflexivity|]. split; [reflexivity|]. apply omap_app.
  - rewrite H. cbn [snd trace].
    eexists. split; [reflexivity|]. split; [reflexivity|]. apply omap_app.
Qed.

(** The mutating calls of an update: none, or the one [Update] with
    the fetched volume, renamed and redescribed, as both arguments. *)
Lemma update_mutations d w e :
  In e (trace (snd (run (resourceRancherVolumeUpdate removed) d w))) ->
  isMutation e = true ->
  exists c v r,
    head (lookupResults (trace (snd (run (resourceRancherVolumeUpdate removed) d w)))) =
      Some (Success (Some v)) /\
    e = EvUpdate c (patched d v) (patched d v) r.
Proof.
  destruct (EnvironmentClient R (Get d "environment_id") w) as [w1 r1] eqn:H1.
  destruct r1 as [c|err].
  2:{ unfold run, resourceRancherVolumeUpdate. go_pure. go_known H1.
      cbn. intros [<-|[]]. discriminate. }
  destruct (Volume_ById R c (rd_id d) w1) as [w2 r2] eqn:H2.
  destruct r2 as [[v|]|err].
  - rewrite (update_found d w w1 c w2 v H1 H2).
    destruct (read_no_mutation (mkMachine d
      (fst (Volume_Update R c (patched d v) (patched d v) w2))
      [EvEnvironmentClient (Get d "environment_id") (Success c);
       EvById c (rd_id d) (Success (Some v));
       EvUpdate c (patched d v) (patched d v)
         (snd (Volume_Update R c (patched d v) (patched d v) w2))]))
      as (evs & -> & Hevs & ->).
    cbn [trace]. intros Hin Hmut.
    exists c, v, (snd (Volume_Update R c (patched d v) (patched d v) w2)).
    split; [reflexivity|].
    apply in_app_or in Hin. destruct Hin as [Hin|Hin].
    + cbn in Hin. destruct Hin as [<-|[<-|[<-|[]]]]; try discriminate Hmut. reflexivity.
    + rewrite forallb_forall in Hevs. apply Hevs in Hin. rewrite Hmut in Hin. discriminate.
  - unfold run, resourceRancherVolumeUpdate. go_pure. go_known H1. cbn [check]. go_pure.
    go_known H2. cbn. intros [<-|[<-|[]]]; discriminate.
  - unfold run, resourceRancherVolumeUpdate. go_pure. go_known H1. cbn [check]. go_pure.
    go_known H2. cbn. intros [<-|[<-|[]]]; discriminate.
Qed.

End Update.

(** C9.  Whatever an update changes on the remote side, it changes
    through one [Update] call, whose payload is the volume the lookup
    returned with the declared name and description written over it: its
    driver, account id, id, state and removal time are the fetched ones,
    whatever driver is declared. *)
Theorem update_sends_fetched_driver_and_scope {R : Remote} (removed : string -> bool)
    (d : ResourceData) (w : World R) (e : Event R) :
  In e (trace (snd (run (resourceRancherVolumeUpdate removed) d w))) ->
  isMutation e = true ->
  exists c v r payload,
    head (lookupResults (trace (snd (run (resourceRancherVolumeUpdate removed) d w)))) =
      Some (Success (Some v)) /\
    e = EvUpdate c payload payload r /\
    Name payload = Get d "name" /\
    Description payload = Get d "description" /\
    Driver payload = Driver v /\
    AccountId payload = AccountId v /\
    Id payload = Id v /\
    State payload = State v /\
    Removed payload = Removed v.
Proof.
  intros Hin Hmut.
  destruct (update_mutations removed d w e Hin Hmut) as (c & v & r & Hl & ->).
  exists c, v, r, (patched d v). repeat split; assumption || reflexivity.
Qed.

(** An update that declares another name and another driver than the
    remote volume has: the call carries the new name and the remote
    driver. *)
Lemma update_sends_fetched_driver_and_scope_witness :
  let d := mkResourceData "vol-123"
             (<["environment_id" := "env1"]>
                (<["name" := "foo2"]> (<["driver" := "rancher-ebs"]> ∅))) in
  let w := Scripted.script [Scripted.seen "active"; Scripted.seen "active"] in
  let sent := mkVolume "vol-123" "foo2" "" "rancher-nfs" "env1" "active" "" in
  exists c v r payload,
    head (lookupResults (trace (snd
      (run (resourceRancherVolumeUpdate (R:=Scripted.remote) Scripted.removed) d w)))) =
      Some (Success (Some v)) /\
    EvUpdate (R:=Scripted.remote) (Scripted.Scoped "env1") sent sent
      (Success (Scripted.vol "inactive")) = EvUpdate c payload payload r /\
    Name payload = Get d "name" /\
    Description payload = Get d "description" /\
    Driver payload = Driver v /\
    AccountId payload = AccountId v /\
    Id payload = Id v /\
    State payload = State v /\
    Removed payload = Removed v.
Proof.
  cbv zeta.
  apply (update_sends_fetched_driver_and_scope (R:=Scripted.remote) Scripted.removed).
  - vm_compute. right. right. left. reflexivity.
  - reflexivity.
Defined.

(** ** Errors of the outbound calls *)

Section Errors.
Context {R : Remote}.
Implicit Types (m : Machine R) (conf : StateChangeConf R) (d : ResourceData) (w : World R).

Lemma returnsError_plain {A} (err : error) : returnsError (A:=A) (Err err) err.
Proof. exists "". reflexivity. Qed.

Lemma returnsError_wrapped {A} (prefix err : error) :
  returnsError (A:=A) (Err (prefix +:+ err)) err.
Proof. exists prefix. reflexivity. Qed.

Lemma append_assoc (a b c : string) : (a +:+ b) +:+ c = a +:+ (b +:+ c).
Proof.
  induction a as [|x a IH]; [reflexivity|].
  change (String x ((a +:+ b) +:+ c) = String x (a +:+ b +:+ c)).
  f_equal. exact IH.
Qed.

Lemma returnsError_wrapped3 {A} (before id after err : error) :
  returnsError (A:=A) (Err (before +:+ id +:+ after +:+ err)) err.
Proof.
  exists (before +:+ id +:+ after).
  rewrite (append_assoc before (id +:+ after) err), (append_assoc id after err).
  reflexivity.
Qed.

(** The loop hands back the error of a failed lookup, and no lookup
    fails in a loop that ends otherwise. *)
Lemma pollLoop_failure conf (c : Client R) (id : string) :
  Refresh conf = VolumeStateRefreshFunc c id ->
  forall budget last m o m',
    pollLoop conf budget last m = (o, m') ->
    exists evs, trace m' = trace m ++ evs /\
      forall e err, In e evs -> failureOf e = Some err -> o = Ok (Failure err).
Proof.
  intros HR. induction budget as [|budget IH]; intros last m o m' H.
  - cbn in H. injection H as <- <-. exists []. rewrite app_nil_r. split; [reflexivity|].
    intros e err [].
  - cbn [pollLoop] in H. rewrite bind_run, HR in H.
    destruct (VolumeStateRefreshFunc_frame c id m) as (r & w & _ & Hf).
    rewrite Hf in H. clear Hf.
    destruct r as [[v|]|err0].
    + destruct (inStates (State v) (Target conf)).
      { injection H as <- <-. cbn [trace]. eexists. split; [reflexivity|].
        intros e err [<-|[]]; discriminate. }
      destruct (inStates (State v) (Pending conf)).
      { rewrite bind_run in H. unfold sleep, emit in H. cbn [rd remote trace] in H.
        apply IH in H. cbn [trace] in H. destruct H as (evs & -> & Hevs).
        rewrite <- !app_assoc. eexists. split; [reflexivity|].
        intros e err Hin He. cbn in Hin. destruct Hin as [<-|[<-|Hin]]; try discriminate He.
        exact (Hevs e err Hin He). }
      injection H as <- <-. cbn [trace]. eexists. split; [reflexivity|].
      intros e err [<-|[]]; discriminate.
    + injection H as <- <-. cbn [trace]. eexists. split; [reflexivity|].
      intros e err [<-|[]]; discriminate.
    + injection H as <- <-. cbn [trace]. eexists. split; [reflexivity|].
      intros e err [<-|[]]. cbn. intros [= <-]. reflexivity.
Qed.

Lemma WaitForState_failure conf (c : Client R) (id : string) m o m' :
  Refresh conf = VolumeStateRefreshFunc c id ->
  WaitForState conf m = (o, m') ->
  rd m' = rd m /\
  (forall e, o <> Err e) /\
  exists evs, trace m' = trace m ++ evs /\
    forall e err, In e evs -> failureOf e = Some err -> o = Ok (Failure err).
Proof.
  intros HR H.
  destruct (WaitForState_frame conf c id m o m' HR H) as (Hrd & evs0 & Hq0 & Hshape).
  split; [exact Hrd|]. split.
  { destruct Hshape as [(r & Ho & _)|[Ho _]]; rewrite Ho; discriminate. }
  clear Hshape. unfold WaitForState in H. rewrite bind_run in H. unfold sleep at 1 in H.
  destruct (pollLoop conf (pollBudget conf) "" _) as [o1 m1] eqn:HP.
  apply (pollLoop_failure conf c id HR) in HP. destruct HP as (evs & Htr & Hevs).
  unfold emit in Htr. cbn [rd remote trace] in Htr.
  destruct o1 as [r|e0|]; injection H as <- <-.
  - unfold emit. cbn [trace]. rewrite Htr, <- !app_assoc. eexists. split; [reflexivity|].
    intros e err Hin He. cbn in Hin. destruct Hin as [<-|[<-|Hin]]; try discriminate He.
    apply in_app_or in Hin. destruct Hin as [Hin|[<-|[]]]; [|discriminate He].
    exact (Hevs e err Hin He).
  - rewrite Htr, <- !app_assoc. eexists. split; [reflexivity|].
    intros e err Hin He. cbn in Hin. destruct Hin as [<-|[<-|Hin]]; try discriminate He.
    exact (Hevs e err Hin He).
  - rewrite Htr, <- !app_assoc. eexists. split; [reflexivity|].
    intros e err Hin He. cbn in Hin. destruct Hin as [<-|[<-|Hin]]; try discriminate He.
    exact (Hevs e err Hin He).
Qed.


End Errors.

(** From [Hin : In e tr] and [He : failureOf e = Some err], with [tr]
    known, conclude [returnsError o err] for the known outcome [o]. *)
Ltac named :=
  first [ apply returnsError_plain | apply returnsError_wrapped3
        | apply returnsError_wrapped ].

Ltac blame Hin He :=
  rewrite ?in_app_iff in Hin; cbn [In] in Hin;
  repeat match type of Hin with
         | _ \/ _ => destruct Hin as [Hin|Hin]
         end;
  try contradiction;
  try (rewrite <- Hin in He; cbn [failureOf] in He;
       first [discriminate He | injection He as <-]; named);
  try match goal with
      | Hevs : _ |- _ =>
          let Hx := fresh "Hx" in
          pose proof (Hevs _ _ Hin He) as Hx;
          first [exact Hx | discriminate Hx | injection Hx as <-; named]
      end.

Section Propagation.
Context {R : Remote} (removed : string -> bool) (splitID : string -> string * string).
Implicit Types (m : Machine R) (d : ResourceData) (w : World R).

Lemma read_errors m :
  exists evs,
    trace (snd (resourceRancherVolumeRead removed m)) = trace m ++ evs /\
    forall e err, In e evs -> failureOf e = Some err ->
      returnsError (fst (resourceRancherVolumeRead removed m)) err.
Proof.
  destruct (read_run removed m) as (w1 & [c|e1] & _ & H).
  - destruct H as (w2 & [volume|e2] & _ & ->); cbn [fst snd trace];
      rewrite <- app_assoc; eexists; (split; [reflexivity|]);
      intros e err Hin He; blame Hin He.
  - rewrite H. cbn [fst snd trace]. eexists. split; [reflexivity|].
    intros e err Hin He; blame Hin He.
Qed.

Lemma import_errors d w e err :
  In e (trace (snd (run (resourceRancherVolumeImport splitID) d w))) ->
  failureOf e = Some err ->
  returnsError (fst (run (resourceRancherVolumeImport splitID) d w)) err.
Proof.
  unfold run, resourceRancherVolumeImport. go_pure.
  destruct (splitID (rd_id d)) as [envID resourceID]. go_pure.
  destruct (negb (envID =? "")%string).
  - go_pure. cbn. contradiction.
  - rewrite bind_run. go_call w1 r1.
    destruct r1 as [c|e1]; cbn [check]; go_pure.
    2:{ cbn [fst snd trace]. intros Hin He. blame Hin He. }
    go_call w2 r2.
    destruct r2 as [[v|]|e2]; cbn [check]; go_pure; cbn [deref]; go_pure;
      unfold d_Set; cbn [fst snd trace]; intros Hin He; blame Hin He.
Qed.

Lemma delete_errors d w e err :
  In e (trace (snd (run resourceRancherVolumeDelete d w))) ->
  failureOf e = Some err ->
  returnsError (fst (run resourceRancherVolumeDelete d w)) err.
Proof.
  unfold run, resourceRancherVolumeDelete.
  go_pure. go_call w1 r1.
  destruct r1 as [c|e1]; cbn [check checkWrap]; go_pure.
  2:{ cbn [fst snd trace]. intros Hin He. blame Hin He. }
  go_call w2 r2.
  destruct r2 as [v|e2]; cbn [check checkWrap]; go_pure.
  2:{ cbn [fst snd trace]. intros Hin He. blame Hin He. }
  rewrite bind_run.
  destruct (WaitForState _ _) as [o3 m3] eqn:H3.
  apply (WaitForState_failure _ c (rd_id d)) in H3; [|reflexivity].
  cbn [rd trace] in H3. destruct H3 as (Hrd3 & Hne3 & evs3 & Htr3 & Hevs3).
  destruct o3 as [[v3|e3]|e3|]; cbn [check checkWrap]; go_pure.
  2:{ rewrite Htr3. intros Hin He. blame Hin He. }
  2:{ exfalso. exact (Hne3 e3 eq_refl). }
  2:{ cbn [fst snd]. rewrite Htr3. intros Hin He. blame Hin He. }
  go_call w4 r4.
  destruct r4 as [[v4|]|e4]; cbn [check checkWrap]; go_pure.
  2:{ unfold client_Volume_ActionRemove. go_pure.
      rewrite Htr3. intros Hin He. blame Hin He. }
  2:{ rewrite Htr3. intros Hin He. blame Hin He. }
  go_call w5 r5.
  destruct r5 as [v5|e5]; cbn [check checkWrap]; go_pure.
  2:{ rewrite Htr3. intros Hin He. blame Hin He. }
  rewrite bind_run.
  destruct (WaitForState _ _) as [o6 m6] eqn:H6.
  apply (WaitForState_failure _ c (rd_id d)) in H6; [|reflexivity].
  cbn [rd trace] in H6. destruct H6 as (Hrd6 & Hne6 & evs6 & Htr6 & Hevs6).
  destruct o6 as [[v6|e6]|e6|]; cbn [check checkWrap]; go_pure.
  2:{ rewrite Htr6, Htr3. intros Hin He. blame Hin He. }
  2:{ exfalso. exact (Hne6 e6 eq_refl). }
  2:{ cbn [fst snd]. rewrite Htr6, Htr3. intros Hin He. blame Hin He. }
  unfold d_SetId. cbn [fst snd trace]. rewrite Htr6, Htr3. intros Hin He. blame Hin He.
Qed.

Lemma create_errors d w e err :
  In e (trace (snd (run (resourceRancherVolumeCreate removed) d w))) ->
  failureOf e = Some err ->
  returnsError (fst (run (resourceRancherVolumeCreate removed) d w)) err.
Proof.
  unfold run, resourceRancherVolumeCreate.
  go_pure. go_call w1 r1.
  destruct r1 as [c|e1]; cbn [check checkWrap]; go_pure.
  2:{ cbn [fst snd trace]. intros Hin He. blame Hin He. }
  go_call w2 r2.
  destruct r2 as [v|e2]; cbn [check checkWrap]; go_pure.
  2:{ cbn [fst snd trace]. intros Hin He. blame Hin He. }
  rewrite bind_run.
  destruct (WaitForState _ _) as [o3 m3] eqn:H3.
  apply (WaitForState_failure _ c (Id v)) in H3; [|reflexivity].
  cbn [rd trace] in H3. destruct H3 as (Hrd3 & Hne3 & evs3 & Htr3 & Hevs3).
  destruct o3 as [[v3|e3]|e3|]; cbn [check checkWrap]; go_pure.
  2:{ rewrite Htr3. intros Hin He. blame Hin He. }
  2:{ exfalso. exact (Hne3 e3 eq_refl). }
  2:{ cbn [fst snd]. rewrite Htr3. intros Hin He. blame Hin He. }
  match goal with
  | |- context [resourceRancherVolumeRead removed ?m] =>
      destruct (read_errors m) as (evs & Htr & Hev); rewrite Htr
  end.
  cbn [trace]. intros Hin He. apply in_app_or in Hin. destruct Hin as [Hin|Hin].
  - rewrite Htr3 in Hin. blame Hin He.
  - exact (Hev e err Hin He).
Qed.

(** An update answers for every failed call but its own [Update]. *)
Lemma update_errors d w e err :
  In e (trace (snd (run (resourceRancherVolumeUpdate removed) d w))) ->
  failureOf e = Some err ->
  (forall c existing updates r, e <> EvUpdate c existing updates r) ->
  returnsError (fst (run (resourceRancherVolumeUpdate removed) d w)) err.
Proof.
  intros Hin He Hnot. revert Hin.
  unfold run, resourceRancherVolumeUpdate.
  go_pure. go_call w1 r1.
  destruct r1 as [c|e1]; cbn [check checkWrap]; go_pure.
  2:{ cbn [fst snd trace]. intros Hin. blame Hin He. }
  go_call w2 r2.
  destruct r2 as [[v|]|e2]; cbn [check checkWrap]; go_pure; cbn [deref]; go_pure.
  2:{ cbn [fst snd trace]. intros Hin. blame Hin He. }
  2:{ cbn [fst snd trace]. intros Hin. blame Hin He. }
  rewrite bind_call. cbn [rd remote trace].
  match goal with
  | |- context [resourceRancherVolumeRead removed ?m] =>
      destruct (read_errors m) as (evs & Htr & Hev); rewrite Htr
  end.
  cbn [trace]. intros Hin.
  rewrite ?in_app_iff in Hin; cbn [In] in Hin.
  destruct Hin as [[[[[]|[Hin|[]]]|[Hin|[]]]|[Hin|[]]]|Hin].
  - rewrite <- Hin in He. discriminate He.
  - rewrite <- Hin in He. discriminate He.
  - exfalso. eapply Hnot. symmetry. exact Hin.
  - exact (Hev e err Hin He).
Qed.

End Propagation.

(** C2, at a failing input.  The remote refuses the [Update] call; the
    callback has made the call, got its error, and returns nil. *)
Example update_drops_update_error :
  let d := Scripted.declared "vol-123" in
  let w := Scripted.mkScript (Success tt) (Success (Scripted.vol "inactive"))
             [Scripted.seen "active"; Scripted.seen "active"]
             (Failure "update refused") (Success (Scripted.vol "removing")) in
  let out := run (resourceRancherVolumeUpdate (R:=Scripted.remote) Scripted.removed) d w in
  fst out = Ok tt /\
  trace (snd out) =
    [EvEnvironmentClient (R:=Scripted.remote) "env1" (Success (Scripted.Scoped "env1"));
     EvById (R:=Scripted.remote) (Scripted.Scoped "env1") "vol-123" (Scripted.seen "active");
     EvUpdate (R:=Scripted.remote) (Scripted.Scoped "env1") (Scripted.vol "active") (Scripted.vol "active")
       (Failure "update refused");
     EvEnvironmentClient (R:=Scripted.remote) "env1" (Success (Scripted.Scoped "env1"));
     EvById (R:=Scripted.remote) (Scripted.Scoped "env1") "vol-123" (Scripted.seen "active")].
Proof. vm_compute. split; reflexivity. Qed.

(** ** Import *)

Section Importer.
Context {R : Remote} (splitID : string -> string * string).
Implicit Types (d : ResourceData) (w : World R).

Lemma import_scoped d w envID resourceID :
  splitID (rd_id d) = (envID, resourceID) ->
  envID <> "" ->
  run (resourceRancherVolumeImport splitID) d w =
    (Ok [mkResourceData resourceID (<["environment_id" := envID]> (rd_attrs d))],
     mkMachine (mkResourceData resourceID (<["environment_id" := envID]> (rd_attrs d)))
       w []).
Proof.
  intros Hs Hne. unfold run, resourceRancherVolumeImport.
  go_pure. rewrite Hs. go_pure.
  destruct (String.eqb_spec envID "") as [->|_]; [contradiction|].
  cbn [negb]. go_pure. reflexivity.
Qed.

(** With a bare id and a global client, what the one lookup answers
    decides the rest. *)
Lemma import_bare d w resourceID w1 c w2 r :
  splitID (rd_id d) = ("", resourceID) ->
  GlobalClient R w = (w1, Success c) ->
  Volume_ById R c resourceID w1 = (w2, r) ->
  run (resourceRancherVolumeImport splitID) d w =
    match r with
    | Success (Some v) =>
        (Ok [mkResourceData resourceID (<["environment_id" := AccountId v]> (rd_attrs d))],
         mkMachine
           (mkResourceData resourceID (<["environment_id" := AccountId v]> (rd_attrs d)))
           w2 [EvGlobalClient (Success c); EvById c resourceID r])
    | Success None =>
        (Panic,
         mkMachine (mkResourceData resourceID (rd_attrs d))
           w2 [EvGlobalClient (Success c); EvById c resourceID r])
    | Failure err =>
        (Err err,
         mkMachine (mkResourceData resourceID (rd_attrs d))
           w2 [EvGlobalClient (Success c); EvById c resourceID r])
    end.
Proof.
  intros Hs H1 H2. unfold run, resourceRancherVolumeImport.
  go_pure. rewrite Hs. go_pure. cbn [String.eqb negb].
  rewrite bind_run. go_known H1. cbn [check]. go_pure. go_known H2.
  destruct r as [[v|]|err]; cbn [check deref]; go_pure; reflexivity.
Qed.

End Importer.

(** C7.  An import whose input splits into a scope and an id sets
    [environment_id] to the scope and the id to the id, and makes no
    outbound call at all.  An import of a bare id that gets the global
    client makes one lookup, by that id through that client, and when it
    finds the volume sets [environment_id] to the volume's account id. *)
Theorem import_scope_or_lookup {R : Remote} (splitID : string -> string * string)
    (d : ResourceData) (w : World R) :
  (forall envID resourceID,
     splitID (rd_id d) = (envID, resourceID) ->
     envID <> "" ->
     let d' := mkResourceData resourceID (<["environment_id" := envID]> (rd_attrs d)) in
     run (resourceRancherVolumeImport splitID) d w = (Ok [d'], mkMachine d' w []) /\
     rd_id d' = resourceID /\ Get d' "environment_id" = envID) /\
  (forall resourceID w1 c w2 r,
     splitID (rd_id d) = ("", resourceID) ->
     GlobalClient R w = (w1, Success c) ->
     Volume_ById R c resourceID w1 = (w2, r) ->
     trace (snd (run (resourceRancherVolumeImport splitID) d w)) =
       [EvGlobalClient (Success c); EvById c resourceID r] /\
     (forall v, r = Success (Some v) ->
        let d' := mkResourceData resourceID
                    (<["environment_id" := AccountId v]> (rd_attrs d)) in
        run (resourceRancherVolumeImport splitID) d w =
          (Ok [d'], mkMachine d' w2 [EvGlobalClient (Success c); EvById c resourceID r]) /\
        rd_id d' = resourceID /\ Get d' "environment_id" = AccountId v)).
Proof.
  split.
  - intros envID resourceID Hs Hne. cbv zeta.
    rewrite (import_scoped splitID d w envID resourceID Hs Hne).
    split; [reflexivity|]. split; [reflexivity|].
    unfold Get. cbn [rd_attrs]. by simplify_map_eq.
  - intros resourceID w1 c w2 r Hs H1 H2.
    rewrite (import_bare splitID d w resourceID w1 c w2 r Hs H1 H2).
    split.
    + destruct r as [[v|]|err]; reflexivity.
    + intros v ->. cbv zeta. split; [reflexivity|]. split; [reflexivity|].
      unfold Get. cbn [rd_attrs]. by simplify_map_eq.
Qed.

(** The two scenarios of the design: ["env1/vol-123"] and ["vol-123"]. *)
Lemma import_scope_or_lookup_witness :
  let import := resourceRancherVolumeImport (R:=Scripted.remote) Scripted.splitID in
  let w := Scripted.script [Scripted.seen "active"] in
  run import (mkResourceData "env1/vol-123" ∅) w =
    (Ok [mkResourceData "vol-123" (<["environment_id" := "env1"]> ∅)],
     mkMachine (R:=Scripted.remote)
       (mkResourceData "vol-123" (<["environment_id" := "env1"]> ∅)) w []) /\
  trace (snd (run import (mkResourceData "vol-123" ∅) w)) =
    [EvGlobalClient (R:=Scripted.remote) (Success Scripted.Global);
     EvById (R:=Scripted.remote) Scripted.Global "vol-123" (Scripted.seen "active")].
Proof.
  cbv zeta. split.
  - apply (proj1 (import_scope_or_lookup (R:=Scripted.remote) Scripted.splitID
                    (mkResourceData "env1/vol-123" ∅)
                    (Scripted.script [Scripted.seen "active"]))
             "env1" "vol-123").
    + reflexivity.
    + discriminate.
  - apply (proj1 (proj2 (import_scope_or_lookup (R:=Scripted.remote) Scripted.splitID
                    (mkResourceData "vol-123" ∅)
                    (Scripted.script [Scripted.seen "active"]))
             "vol-123" (Scripted.script [Scripted.seen "active"]) Scripted.Global
             (Scripted.script []) (Scripted.seen "active") eq_refl eq_refl eq_refl)).
Defined.

(** C10.  An import of a bare id whose global lookup answers with no
    volume and no error goes on to read the account id through the nil
    pointer: the callback does not return an error, it panics, having
    set the id and nothing else. *)
Theorem import_bare_absent_panics {R : Remote} (splitID : string -> string * string)
    (d : ResourceData) (w w1 w2 : World R) (resourceID : string) (c : Client R) :
  splitID (rd_id d) = ("", resourceID) ->
  GlobalClient R w = (w1, Success c) ->
  Volume_ById R c resourceID w1 = (w2, Success None) ->
  run (resourceRancherVolumeImport splitID) d w =
    (Panic,
     mkMachine (mkResourceData resourceID (rd_attrs d)) w2
       [EvGlobalClient (Success c); EvById c resourceID (Success None)]) /\
  (forall err, fst (run (resourceRancherVolumeImport splitID) d w) <> Err err).
Proof.
  intros Hs H1 H2.
  rewrite (import_bare splitID d w resourceID w1 c w2 (Success None) Hs H1 H2).
  split; [reflexivity|]. intros err. discriminate.
Qed.

Lemma import_bare_absent_panics_witness :
  fst (run (resourceRancherVolumeImport (R:=Scripted.remote) Scripted.splitID)
         (mkResourceData "vol-123" ∅) (Scripted.script [Success None])) = Panic.
Proof.
  rewrite (proj1 (import_bare_absent_panics (R:=Scripted.remote) Scripted.splitID
             (mkResourceData "vol-123" ∅) (Scripted.script [Success None])
             (Scripted.script [Success None]) (Scripted.script [])
             "vol-123" Scripted.Global eq_refl eq_refl eq_refl)).
  reflexivity.
Defined.

(** ** The convergence requests *)

Section Requests.
Context {R : Remote}.
Implicit Types (m : Machine R) (conf : StateChangeConf R) (c : Client R).

(** A state in neither set ends the loop at the poll that sees it. *)
Lemma pollLoop_unexpected conf c id m w' v budget last :
  Refresh conf = VolumeStateRefreshFunc c id ->
  Volume_ById R c id (remote m) = (w', Success (Some v)) ->
  inStates (State v) (Pending conf) = false ->
  inStates (State v) (Target conf) = false ->
  pollLoop conf (S budget) last m =
    (Ok (Failure (UnexpectedStateError (State v) (Target conf))),
     mkMachine (rd m) w' (trace m ++ [EvById c id (Success (Some v))])).
Proof.
  intros HR Hb Hp Ht. cbn [pollLoop]. rewrite bind_run, HR.
  destruct (VolumeStateRefreshFunc_frame c id m) as (r & w & E & ->).
  rewrite Hb in E. injection E as <- <-.
  rewrite Ht, Hp. reflexivity.
Qed.

Lemma WaitForState_unexpected conf c id m w' v :
  Refresh conf = VolumeStateRefreshFunc c id ->
  Volume_ById R c id (remote m) = (w', Success (Some v)) ->
  inStates (State v) (Pending conf) = false ->
  inStates (State v) (Target conf) = false ->
  WaitForState conf m =
    (Ok (Failure (UnexpectedStateError (State v) (Target conf))),
     mkMachine (rd m) w'
       (trace m ++ [EvWaitBegin (Pending conf) (Target conf);
                    EvSleep (Delay conf);
                    EvById c id (Success (Some v));
                    EvWaitEnd false])).
Proof.
  intros HR Hb Hp Ht. unfold WaitForState, pollBudget.
  rewrite bind_run. unfold sleep at 1.
  rewrite (pollLoop_unexpected conf c id
             (emit (EvSleep (Delay conf))
                (emit (EvWaitBegin (Pending conf) (Target conf)) m))
             w' v _ "" HR Hb Hp Ht).
  unfold emit. cbn [rd remote trace waitEnded]. rewrite <- !app_assoc. reflexivity.
Qed.

(** The loop's own answer to a not-found signal, were it given one. *)
Lemma pollLoop_not_found conf m m' state budget last :
  Refresh conf m = (Ok (Success (None, state)), m') ->
  inStates "removed" (Target conf) = true ->
  pollLoop conf (S budget) last m = (Ok (Success None), m').
Proof. intros HR Ht. cbn [pollLoop]. rewrite bind_run, HR, Ht. reflexivity. Qed.

(** The refresh closure gives no such signal: it panics. *)
Lemma VolumeStateRefreshFunc_absent c id m w' :
  Volume_ById R c id (remote m) = (w', Success None) ->
  VolumeStateRefreshFunc c id m =
    (Panic, mkMachine (rd m) w' (trace m ++ [EvById c id (Success None)])).
Proof.
  intros Hb. destruct (VolumeStateRefreshFunc_frame c id m) as (r & w & E & ->).
  rewrite Hb in E. injection E as <- <-. reflexivity.
Qed.

Lemma WaitForState_absent conf c id m w' :
  Refresh conf = VolumeStateRefreshFunc c id ->
  Volume_ById R c id (remote m) = (w', Success None) ->
  fst (WaitForState conf m) = Panic.
Proof.
  intros HR Hb. unfold WaitForState, pollBudget. rewrite bind_run.
  unfold sleep at 1. cbn [pollLoop]. rewrite bind_run, HR.
  rewrite (VolumeStateRefreshFunc_absent c id _ w'); [reflexivity|exact Hb].
Qed.

Lemma drain_sets_disjoint c id state :
  In state (Pending (drainStateConf c id)) -> ~ In state (Target (drainStateConf c id)).
Proof. cbn. intros [<-|[<-|[]]] [H|[H|[]]]; discriminate H. Qed.

Lemma create_sets_share c id state :
  In state (Pending (createStateConf c id)) /\ In state (Target (createStateConf c id))
  <-> state = "inactive".
Proof. cbn. split; [intros [[<-|[]] _]; reflexivity | intros ->; auto]. Qed.

Lemma remove_sets_share c id state :
  In state (Pending (removeStateConf c id)) /\ In state (Target (removeStateConf c id))
  <-> state = "removed".
Proof. cbn. split; [intros [_ [<-|[]]]; reflexivity | intros ->; auto]. Qed.

End Requests.

(** C1, as the claim has it, fails: the create request waits with
    pending = target = {inactive}, and the post-remove request lists
    [removed] on both sides. *)
Lemma create_sets_not_disjoint :
  let c : Client Scripted.remote := Scripted.Scoped "env1" in
  ~ (forall conf : StateChangeConf Scripted.remote,
       In conf [createStateConf c "vol-123"; drainStateConf c "vol-123";
                removeStateConf c "vol-123"] ->
       forall state, In state (Pending conf) -> ~ In state (Target conf)).
Proof.
  cbv zeta. intros H.
  apply (H (createStateConf (R:=Scripted.remote) (Scripted.Scoped "env1") "vol-123")
           (or_introl eq_refl) "inactive"); cbn; auto.
Qed.

(** C1, amended.  Of the three requests the callbacks build, the drain
    request has disjoint sets; the create request shares exactly
    [inactive] and the post-remove request exactly [removed].  For each
    of the three, a poll that sees a state in neither set ends the loop
    there with the unexpected-state error and one lookup, and a
    convergence whose first poll sees such a state has slept its delay,
    looked up once and failed. *)
Theorem requests_sets_and_unexpected_state {R : Remote} (c : Client R) (id : string) :
  (forall state,
     In state (Pending (drainStateConf c id)) -> ~ In state (Target (drainStateConf c id))) /\
  (forall state,
     In state (Pending (createStateConf c id)) /\ In state (Target (createStateConf c id))
     <-> state = "inactive") /\
  (forall state,
     In state (Pending (removeStateConf c id)) /\ In state (Target (removeStateConf c id))
     <-> state = "removed") /\
  (forall conf m w' v,
     In conf [createStateConf c id; drainStateConf c id; removeStateConf c id] ->
     Volume_ById R c id (remote m) = (w', Success (Some v)) ->
     inStates (State v) (Pending conf) = false ->
     inStates (State v) (Target conf) = false ->
     (forall budget last,
        pollLoop conf (S budget) last m =
          (Ok (Failure (UnexpectedStateError (State v) (Target conf))),
           mkMachine (rd m) w' (trace m ++ [EvById c id (Success (Some v))]))) /\
     WaitForState conf m =
       (Ok (Failure (UnexpectedStateError (State v) (Target conf))),
        mkMachine (rd m) w'
          (trace m ++ [EvWaitBegin (Pending conf) (Target conf);
                       EvSleep (Delay conf);
                       EvById c id (Success (Some v));
                       EvWaitEnd false]))).
Proof.
  split; [apply drain_sets_disjoint|].
  split; [apply create_sets_share|].
  split; [apply remove_sets_share|].
  intros conf m w' v Hconf Hb Hp Ht.
  assert (HR : Refresh conf = VolumeStateRefreshFunc c id).
  { cbn in Hconf. destruct Hconf as [<-|[<-|[<-|[]]]]; reflexivity. }
  split.
  - intros budget last. exact (pollLoop_unexpected conf c id m w' v budget last HR Hb Hp Ht).
  - exact (WaitForState_unexpected conf c id m w' v HR Hb Hp Ht).
Qed.

(** A drain that finds the volume already removed. *)
Lemma requests_sets_and_unexpected_state_witness :
  let c : Client Scripted.remote := Scripted.Scoped "env1" in
  let m := mkMachine (R:=Scripted.remote) (Scripted.declared "vol-123")
             (Scripted.script [Scripted.seen "removed"]) [] in
  WaitForState (drainStateConf c "vol-123") m =
    (Ok (Failure "unexpected state 'removed', wanted target 'inactive, detached'"),
     mkMachine (R:=Scripted.remote) (Scripted.declared "vol-123") (Scripted.script [])
       [EvWaitBegin ["active"; "deactivating"] ["inactive"; "detached"];
        EvSleep 1000;
        EvById (R:=Scripted.remote) c "vol-123" (Scripted.seen "removed");
        EvWaitEnd false]).
Proof.
  cbv zeta.
  destruct (requests_sets_and_unexpected_state (R:=Scripted.remote)
              (Scripted.Scoped "env1") "vol-123") as (_ & _ & _ & H).
  exact (proj2 (H (drainStateConf (R:=Scripted.remote) (Scripted.Scoped "env1") "vol-123")
                  (mkMachine (R:=Scripted.remote) (Scripted.declared "vol-123")
                     (Scripted.script [Scripted.seen "removed"]) [])
                  (Scripted.script []) (Scripted.vol "removed")
                  (or_intror (or_introl eq_refl)) eq_refl eq_refl eq_refl)).
Defined.

(** C3, at a failing input.  The drain sees the volume inactive, the
    remove call succeeds, and the first poll after it finds no volume:
    the refresh closure reads the state through the nil pointer and the
    delete panics, with the removal convergence begun and not ended and
    the declared id still set. *)
Example delete_absent_after_remove_panics :
  let d := Scripted.declared "vol-123" in
  let w := Scripted.script [Scripted.seen "inactive"; Scripted.seen "inactive";
                            Scripted.seen "inactive"; Success None] in
  let out := run (R:=Scripted.remote) resourceRancherVolumeDelete d w in
  fst out = Panic /\
  phases (trace (snd out)) = [drainBegin; PhaseEnd true; PhaseRemove; removeBegin] /\
  rd (snd out) = d.
Proof. vm_compute. repeat split; reflexivity. Qed.

(** * Beyond the stated properties *)

(** ** Mutating calls *)

Section Mutations.
Context {R : Remote}.
Implicit Types (m : Machine R) (d : ResourceData) (w : World R).

Lemma mutations_app (a b : list (Event R)) : mutations (a ++ b) = mutations a ++ mutations b.
Proof. apply List.filter_app. Qed.

Lemma mutations_poll (evs : list (Event R)) :
  forallb isPoll evs = true -> mutations evs = [].
Proof.
  induction evs as [|e evs IH]; [reflexivity|].
  cbn [forallb]. intros [He Hevs]%andb_prop.
  destruct e; try discriminate He; cbn; auto.
Qed.

Lemma mutations_none (evs : list (Event R)) :
  forallb (fun e => negb (isMutation e)) evs = true -> mutations evs = [].
Proof.
  induction evs as [|e evs IH]; [reflexivity|].
  cbn [forallb]. intros [He Hevs]%andb_prop.
  unfold mutations. cbn [List.filter].
  destruct (isMutation e); [discriminate He|]. exact (IH Hevs).
Qed.

Lemma mutations_cons (e : Event R) (tr : list (Event R)) :
  mutations (e :: tr) = if isMutation e then e :: mutations tr else mutations tr.
Proof. reflexivity. Qed.

Lemma mutations_nil : mutations (@nil (Event R)) = [].
Proof. reflexivity. Qed.

(** A convergence makes no mutating call. *)
Lemma WaitForState_mutations conf (c : Client R) (id : string) m :
  Refresh conf = VolumeStateRefreshFunc c id ->
  mutations (trace (snd (WaitForState conf m))) = mutations (trace m).
Proof.
  intros HR. destruct (WaitForState conf m) as [o m'] eqn:H.
  destruct (WaitForState_frame conf c id m o m' HR H) as (_ & evs & Hq & Hshape).
  cbn [snd].
  destruct Hshape as [(r & _ & ->)|[_ ->]];
    rewrite mutations_app; change (?x :: ?l) with ([x] ++ l);
    rewrite ?mutations_app, (mutations_poll evs Hq); cbn; rewrite app_nil_r; reflexivity.
Qed.

End Mutations.

Ltac mutations_norm :=
  repeat (first [ rewrite mutations_app | rewrite mutations_cons | rewrite mutations_nil
                | rewrite mutations_poll by assumption
                | rewrite mutations_none by assumption ];
          cbn [isMutation app]).

Section MutationsOfCallbacks.
Context {R : Remote} (removed : string -> bool).
Implicit Types (m : Machine R) (d : ResourceData) (w : World R).

Lemma read_mutations m :
  mutations (trace (snd (resourceRancherVolumeRead removed m))) = mutations (trace m).
Proof.
  destruct (read_no_mutation removed m) as (evs & -> & Hevs & _).
  rewrite mutations_app, (mutations_none evs Hevs). apply app_nil_r.
Qed.

Lemma create_mutations d w :
  mutations (trace (snd (run (resourceRancherVolumeCreate removed) d w))) = [] \/
  exists c r,
    mutations (trace (snd (run (resourceRancherVolumeCreate removed) d w))) =
      [EvCreate c (declaredVolume d) r].
Proof.
  unfold run, resourceRancherVolumeCreate.
  go_pure. go_call w1 r1.
  destruct r1 as [c|e1]; cbn [check checkWrap]; go_pure; [|left; reflexivity].
  fold (declaredVolume d). go_call w2 r2. right. exists c, r2.
  destruct r2 as [v|e2]; cbn [check checkWrap]; go_pure; [|reflexivity].
  rewrite bind_run.
  destruct (WaitForState _ _) as [o3 m3] eqn:H3.
  apply (WaitForState_frame _ c (Id v)) in H3; [|reflexivity].
  cbn [rd trace] in H3.
  destruct H3 as (Hrd3 & evs3 & Hq3 & [(r3 & -> & Htr3)|[-> Htr3]]).
  2:{ cbn [snd]. rewrite Htr3. mutations_norm. reflexivity. }
  destruct r3 as [v3|e3]; cbn [check checkWrap]; go_pure.
  2:{ rewrite Htr3. mutations_norm. reflexivity. }
  rewrite read_mutations. cbn [trace]. rewrite Htr3. mutations_norm. reflexivity.
Qed.

Lemma update_mutation_list d w :
  mutations (trace (snd (run (resourceRancherVolumeUpdate removed) d w))) = [] \/
  exists c v r,
    mutations (trace (snd (run (resourceRancherVolumeUpdate removed) d w))) =
      [EvUpdate c (patched d v) (patched d v) r].
Proof.
  unfold run, resourceRancherVolumeUpdate.
  go_pure. go_call w1 r1.
  destruct r1 as [c|e1]; cbn [check]; go_pure; [|left; reflexivity].
  go_call w2 r2.
  destruct r2 as [[v|]|e2]; cbn [check]; go_pure; cbn [deref]; go_pure;
    [|left; reflexivity|left; reflexivity].
  fold (patched d v). rewrite bind_call. cbn [rd remote trace].
  right. exists c, v, (snd (Volume_Update R c (patched d v) (patched d v) w2)).
  rewrite read_mutations. reflexivity.
Qed.

Lemma delete_mutations d w :
  mutations (trace (snd (run resourceRancherVolumeDelete d w))) = [] \/
  exists c v r,
    mutations (trace (snd (run resourceRancherVolumeDelete d w))) =
      [EvActionRemove c v r].
Proof.
  unfold run, resourceRancherVolumeDelete.
  go_pure. go_call w1 r1.
  destruct r1 as [c|e1]; cbn [check checkWrap]; go_pure; [|left; reflexivity].
  go_call w2 r2.
  destruct r2 as [v|e2]; cbn [check checkWrap]; go_pure; [|left; reflexivity].
  rewrite bind_run.
  destruct (WaitForState _ _) as [o3 m3] eqn:H3.
  apply (WaitForState_frame _ c (rd_id d)) in H3; [|reflexivity].
  cbn [rd trace] in H3.
  destruct H3 as (Hrd3 & evs3 & Hq3 & [(r3 & -> & Htr3)|[-> Htr3]]).
  2:{ left. cbn [snd]. rewrite Htr3. mutations_norm. reflexivity. }
  destruct r3 as [v3|e3]; cbn [check checkWrap]; go_pure.
  2:{ left. rewrite Htr3. mutations_norm. reflexivity. }
  go_call w4 r4.
  destruct r4 as [[v4|]|e4]; cbn [check checkWrap]; go_pure.
  2:{ left. unfold client_Volume_ActionRemove. go_pure.
      rewrite Htr3. mutations_norm. reflexivity. }
  2:{ left. rewrite Htr3. mutations_norm. reflexivity. }
  go_call w5 r5. right. exists c, v4, r5.
  destruct r5 as [v5|e5]; cbn [check checkWrap]; go_pure.
  2:{ rewrite Htr3. mutations_norm. reflexivity. }
  rewrite bind_run.
  destruct (WaitForState _ _) as [o6 m6] eqn:H6.
  apply (WaitForState_frame _ c (rd_id d)) in H6; [|reflexivity].
  cbn [rd trace] in H6.
  destruct H6 as (Hrd6 & evs6 & Hq6 & [(r6 & -> & Htr6)|[-> Htr6]]).
  2:{ cbn [snd]. rewrite Htr6, Htr3. mutations_norm. reflexivity. }
  destruct r6 as [v6|e6]; cbn [check checkWrap]; go_pure.
  2:{ rewrite Htr6, Htr3. mutations_norm. reflexivity. }
  unfold d_SetId. cbn [snd trace]. rewrite Htr6, Htr3. mutations_norm. reflexivity.
Qed.

End MutationsOfCallbacks.

Section MutationsOfImport.
Context {R : Remote} (splitID : string -> string * string).

Lemma import_mutations (d : ResourceData) (w : World R) :
  mutations (trace (snd (run (resourceRancherVolumeImport splitID) d w))) = [].
Proof.
  unfold run, resourceRancherVolumeImport. go_pure.
  destruct (splitID (rd_id d)) as [envID resourceID]. go_pure.
  destruct (negb (envID =? "")%string).
  - go_pure. reflexivity.
  - rewrite bind_run. go_call w1 r1.
    destruct r1 as [c|e1]; cbn [check]; go_pure; [|reflexivity].
    go_call w2 r2.
    destruct r2 as [[v|]|e2]; cbn [check]; go_pure; cbn [deref]; go_pure; reflexivity.
Qed.

End MutationsOfImport.

(** X2.  On every remote, a read and an import make no mutating call; a
    create makes at most one, the [Create] of the declared name,
    description and driver; an update at most one, the [Update] of the
    fetched volume under its new name and description; a delete at most
    one, an [ActionRemove]. *)
Theorem callbacks_mutating_calls {R : Remote}
    (removed : string -> bool) (splitID : string -> string * string)
    (d : ResourceData) (w : World R) :
  mutations (trace (snd (run (resourceRancherVolumeRead removed) d w))) = [] /\
  mutations (trace (snd (run (resourceRancherVolumeImport splitID) d w))) = [] /\
  (mutations (trace (snd (run (resourceRancherVolumeCreate removed) d w))) = [] \/
   exists c r,
     mutations (trace (snd (run (resourceRancherVolumeCreate removed) d w))) =
       [EvCreate c (declaredVolume d) r]) /\
  (mutations (trace (snd (run (resourceRancherVolumeUpdate removed) d w))) = [] \/
   exists c v r,
     mutations (trace (snd (run (resourceRancherVolumeUpdate removed) d w))) =
       [EvUpdate c (patched d v) (patched d v) r]) /\
  (mutations (trace (snd (run resourceRancherVolumeDelete d w))) = [] \/
   exists c v r,
     mutations (trace (snd (run resourceRancherVolumeDelete d w))) =
       [EvActionRemove c v r]).
Proof.
  split; [exact (read_mutations removed (mkMachine d w []))|].
  split; [apply import_mutations|].
  split; [apply create_mutations|].
  split; [apply update_mutation_list|apply delete_mutations].
Qed.

(** ** Failing reads and updates *)

Section Failing.
Context {R : Remote} (removed : string -> bool).
Implicit Types (m : Machine R) (d : ResourceData) (w : World R).

Lemma read_failure_keeps_d m :
  fst (resourceRancherVolumeRead removed m) <> Ok tt ->
  rd (snd (resourceRancherVolumeRead removed m)) = rd m.
Proof.
  destruct (read_run removed m) as (w1 & [c|e1] & _ & H).
  - destruct H as (w2 & [volume|e2] & _ & ->); cbn [fst snd rd]; [|reflexivity].
    intros Hno. contradiction.
  - rewrite H. reflexivity.
Qed.

Lemma update_failure_keeps_d d w :
  fst (run (resourceRancherVolumeUpdate removed) d w) <> Ok tt ->
  rd (snd (run (resourceRancherVolumeUpdate removed) d w)) = d.
Proof.
  unfold run, resourceRancherVolumeUpdate.
  go_pure. go_call w1 r1.
  destruct r1 as [c|e1]; cbn [check]; go_pure; [|reflexivity].
  go_call w2 r2.
  destruct r2 as [[v|]|e2]; cbn [check]; go_pure; cbn [deref]; go_pure;
    try reflexivity.
  rewrite bind_call. cbn [rd remote trace].
  intros Hno. rewrite (read_failure_keeps_d _ Hno). reflexivity.
Qed.

Lemma update_absent d w w1 c w2 :
  EnvironmentClient R (Get d "environment_id") w = (w1, Success c) ->
  Volume_ById R c (rd_id d) w1 = (w2, Success None) ->
  run (resourceRancherVolumeUpdate removed) d w =
    (Panic,
     mkMachine d w2 [EvEnvironmentClient (Get d "environment_id") (Success c);
                     EvById c (rd_id d) (Success None)]).
Proof.
  intros H1 H2. unfold run, resourceRancherVolumeUpdate.
  go_pure. go_known H1. cbn [check]. go_pure. go_known H2. cbn [check]. go_pure.
  reflexivity.
Qed.

End Failing.

(** X3.  A read or an update that does not return nil, whether it
    returns an error or panics, leaves the resource data as it found
    it: id and attribute bag. *)
Theorem failed_read_or_update_keeps_d {R : Remote} (removed : string -> bool)
    (d : ResourceData) (w : World R) :
  (fst (run (resourceRancherVolumeRead removed) d w) <> Ok tt ->
   rd (snd (run (resourceRancherVolumeRead removed) d w)) = d) /\
  (fst (run (resourceRancherVolumeUpdate removed) d w) <> Ok tt ->
   rd (snd (run (resourceRancherVolumeUpdate removed) d w)) = d).
Proof.
  split.
  - exact (read_failure_keeps_d removed (mkMachine d w [])).
  - apply update_failure_keeps_d.
Qed.

(** A read whose lookup fails; an update whose closing read has no
    client. *)
Lemma failed_read_or_update_keeps_d_witness :
  let d := Scripted.declared "vol-123" in
  rd (snd (run (resourceRancherVolumeRead (R:=Scripted.remote) Scripted.removed) d
             (Scripted.script [Failure "lookup refused"]))) = d /\
  rd (snd (run (resourceRancherVolumeUpdate (R:=Scripted.remote) Scripted.removed) d
             (Scripted.script [Scripted.seen "active"; Failure "lookup refused"]))) = d.
Proof.
  cbv zeta. split.
  - apply (proj1 (failed_read_or_update_keeps_d (R:=Scripted.remote) Scripted.removed _ _)).
    vm_compute. discriminate.
  - apply (proj2 (failed_read_or_update_keeps_d (R:=Scripted.remote) Scripted.removed _ _)).
    vm_compute. discriminate.
Defined.

(** X4.  An update whose lookup answers with no volume and no error
    writes the name through the nil pointer: it panics after the
    lookup, before any [Update] call, and leaves the resource data as
    it was; it does not clear the id as a read does. *)
Theorem update_absent_panics {R : Remote} (removed : string -> bool)
    (d : ResourceData) (w w1 w2 : World R) (c : Client R) :
  EnvironmentClient R (Get d "environment_id") w = (w1, Success c) ->
  Volume_ById R c (rd_id d) w1 = (w2, Success None) ->
  run (resourceRancherVolumeUpdate removed) d w =
    (Panic,
     mkMachine d w2 [EvEnvironmentClient (Get d "environment_id") (Success c);
                     EvById c (rd_id d) (Success None)]) /\
  run (resourceRancherVolumeRead removed) d w =
    (Ok tt,
     mkMachine (mkResourceData "" (rd_attrs d)) w2
       [EvEnvironmentClient (Get d "environment_id") (Success c);
        EvById c (rd_id d) (Success None)]).
Proof.
  intros H1 H2. split.
  - exact (update_absent removed d w w1 c w2 H1 H2).
  - exact (read_found removed d w w1 c w2 None H1 H2).
Qed.

Lemma update_absent_panics_witness :
  fst (run (resourceRancherVolumeUpdate (R:=Scripted.remote) Scripted.removed)
         (Scripted.declared "vol-123") (Scripted.script [Success None])) = Panic.
Proof.
  rewrite (proj1 (update_absent_panics (R:=Scripted.remote) Scripted.removed
             (Scripted.declared "vol-123") (Scripted.script [Success None])
             (Scripted.script [Success None]) (Scripted.script [])
             (Scripted.Scoped "env1") eq_refl eq_refl)).
  reflexivity.
Defined.

(** ** The convergence of create *)

Section CreateConvergence.
Context {R : Remote}.
Implicit Types (m : Machine R) (c : Client R).

Lemma create_poll_once c id m budget last :
  pollLoop (createStateConf c id) (S budget) last m =
    (settled (snd (Volume_ById R c id (remote m))),
     mkMachine (rd m) (fst (Volume_ById R c id (remote m)))
       (trace m ++ [EvById c id (snd (Volume_ById R c id (remote m)))])).
Proof.
  cbn [pollLoop]. rewrite bind_run. cbn [Refresh createStateConf].
  destruct (VolumeStateRefreshFunc_frame c id m) as (r & w' & E & ->).
  rewrite E. cbn [fst snd].
  destruct r as [[v|]|err]; cbn [settled]; try reflexivity.
  cbn [Target Pending createStateConf inStates existsb].
  rewrite orb_false_r. destruct (State v =? "inactive")%string; reflexivity.
Qed.

Lemma create_wait_once c id m :
  WaitForState (createStateConf c id) m =
    (settled (snd (Volume_ById R c id (remote m))),
     mkMachine (rd m) (fst (Volume_ById R c id (remote m)))
       (trace m ++ [EvWaitBegin ["inactive"] ["inactive"]; EvSleep (1 * Second);
                    EvById c id (snd (Volume_ById R c id (remote m)))]
                ++ endMark (settled (snd (Volume_ById R c id (remote m)))))).
Proof.
  unfold WaitForState, pollBudget. rewrite bind_run. unfold sleep at 1.
  rewrite create_poll_once. unfold emit. cbn [rd remote trace Pending Target Delay createStateConf].
  set (r := snd (Volume_ById R c id (remote m))).
  destruct (settled r) as [x|e|] eqn:Hs.
  - cbn [endMark]. rewrite <- !app_assoc. reflexivity.
  - destruct r as [[v|]|err]; cbn [settled] in Hs; try discriminate Hs.
    destruct (State v =? "inactive")%string; discriminate Hs.
  - cbn [endMark]. rewrite app_nil_r, <- !app_assoc. reflexivity.
Qed.

End CreateConvergence.

(** X5.  The convergence a create starts never waits: on every remote
    it sleeps its delay, looks the volume up once and ends.  It succeeds
    when that one lookup finds the volume inactive, fails with the
    unexpected-state error on any other state and with the lookup's
    error when the lookup fails, and panics when the lookup finds no
    volume.  (The loop of [WaitForState] is the one written from the
    design.) *)
Theorem create_convergence_one_lookup {R : Remote} (c : Client R) (id : string)
    (m : Machine R) :
  let lookup := Volume_ById R c id (remote m) in
  WaitForState (createStateConf c id) m =
    (match snd lookup with
     | Success (Some v) =>
         if String.eqb (State v) "inactive" then Ok (Success (Some v))
         else Ok (Failure (UnexpectedStateError (State v) ["inactive"]))
     | Success None => Panic
     | Failure err => Ok (Failure err)
     end,
     mkMachine (rd m) (fst lookup)
       (trace m ++ [EvWaitBegin ["inactive"] ["inactive"]; EvSleep 1000;
                    EvById c id (snd lookup)]
                ++ match snd lookup with
                   | Success (Some v) => [EvWaitEnd (String.eqb (State v) "inactive")]
                   | Success None => []
                   | Failure _ => [EvWaitEnd false]
                   end)).
Proof.
  cbv zeta. rewrite create_wait_once. unfold settled, endMark.
  destruct (snd (Volume_ById R c id (remote m))) as [[v|]|err]; try reflexivity.
  destruct (State v =? "inactive")%string; reflexivity.
Qed.

Section CreateSucceeds.
Context {R : Remote} (removed : string -> bool).
Implicit Types (d : ResourceData) (w : World R).

Lemma create_ok d w :
  fst (run (resourceRancherVolumeCreate removed) d w) = Ok tt ->
  exists c created settledVolume c' volume,
    trace (snd (run (resourceRancherVolumeCreate removed) d w)) =
      [EvEnvironmentClient (Get d "environment_id") (Success c);
       EvCreate c (declaredVolume d) (Success created);
       EvWaitBegin ["inactive"] ["inactive"];
       EvSleep 1000;
       EvById c (Id created) (Success (Some settledVolume));
       EvWaitEnd true;
       EvEnvironmentClient (Get d "environment_id") (Success c');
       EvById c' (Id created) (Success volume)] /\
    State settledVolume = "inactive" /\
    rd (snd (run (resourceRancherVolumeCreate removed) d w)) =
      refreshed removed (mkResourceData (Id created) (rd_attrs d)) volume.
Proof.
  unfold run, resourceRancherVolumeCreate.
  go_pure. go_call w1 r1.
  destruct r1 as [c|e1]; cbn [check checkWrap]; go_pure; [|discriminate].
  fold (declaredVolume d). go_call w2 r2.
  destruct r2 as [created|e2]; cbn [check checkWrap]; go_pure; [|discriminate].
  rewrite bind_run, create_wait_once. cbn [rd remote trace].
  destruct (Volume_ById R c (Id created) w2) as [w3 r3]. cbn [fst snd].
  destruct r3 as [[v3|]|e3]; cbn [settled endMark]; try discriminate.
  destruct (State v3 =? "inactive")%string eqn:Hst; cbn [checkWrap waitEnded]; go_pure;
    [|discriminate].
  apply String.eqb_eq in Hst.
  match goal with
  | |- context [resourceRancherVolumeRead removed ?m] =>
      destruct (read_run removed m) as (w4 & r4 & E4 & H4)
  end.
  cbn [rd remote trace rd_id rd_attrs] in *.
  destruct r4 as [c'|e4].
  - destruct H4 as (w5 & r5 & E5 & ->). cbn [fst snd trace rd].
    destruct r5 as [volume|e5]; [|discriminate]. intros _.
    exists c, created, v3, c', volume.
    split; [|split; [exact Hst|reflexivity]].
    unfold Get. cbn [rd_attrs]. rewrite <- !app_assoc. reflexivity.
  - rewrite H4. discriminate.
Qed.

End CreateSucceeds.

(** X6.  A create that returns nil has made exactly eight steps: client,
    [Create] of the declared volume, one convergence with one lookup
    that found the volume inactive, then the client and lookup of the
    closing read.  The resource data is what that read makes of the
    declaration with the new id, so the id left behind is the created
    volume's, or empty when the closing lookup finds the volume absent
    or removed. *)
Theorem create_returns_nil {R : Remote} (removed : string -> bool)
    (d : ResourceData) (w : World R) :
  fst (run (resourceRancherVolumeCreate removed) d w) = Ok tt ->
  exists c created settledVolume c' volume,
    trace (snd (run (resourceRancherVolumeCreate removed) d w)) =
      [EvEnvironmentClient (Get d "environment_id") (Success c);
       EvCreate c (declaredVolume d) (Success created);
       EvWaitBegin ["inactive"] ["inactive"];
       EvSleep 1000;
       EvById c (Id created) (Success (Some settledVolume));
       EvWaitEnd true;
       EvEnvironmentClient (Get d "environment_id") (Success c');
       EvById c' (Id created) (Success volume)] /\
    State settledVolume = "inactive" /\
    rd (snd (run (resourceRancherVolumeCreate removed) d w)) =
      refreshed removed (mkResourceData (Id created) (rd_attrs d)) volume /\
    (rd_id (rd (snd (run (resourceRancherVolumeCreate removed) d w))) = Id created \/
     rd_id (rd (snd (run (resourceRancherVolumeCreate removed) d w))) = "").
Proof.
  intros Hok.
  destruct (create_ok removed d w Hok) as (c & created & v & c' & volume & Htr & Hst & Hrd).
  exists c, created, v, c', volume. repeat split; try assumption.
  rewrite Hrd. destruct volume as [v'|]; cbn [refreshed]; [|right; reflexivity].
  destruct (removed (State v')); [right|left]; reflexivity.
Qed.

(** A create whose closing read finds the volume already gone: nil is
    returned and the id is empty. *)
Lemma create_returns_nil_witness :
  let out := run (resourceRancherVolumeCreate (R:=Scripted.remote) Scripted.removed)
               (Scripted.declared "")
               (Scripted.script [Scripted.seen "inactive"; Success None]) in
  fst out = Ok tt /\ rd_id (rd (snd out)) = "".
Proof.
  cbv zeta. split; [vm_compute; reflexivity|].
  destruct (create_returns_nil (R:=Scripted.remote) Scripted.removed
              (Scripted.declared "")
              (Scripted.script [Scripted.seen "inactive"; Success None])
              ltac:(vm_compute; reflexivity))
    as (c & created & v & c' & volume & Htr & _ & Hrd & _).
  vm_compute in Htr. injection Htr; intros; subst volume.
  rewrite Hrd. reflexivity.
Defined.

(** X7.  On every remote, when an outbound call of a read, a create, a
    delete or an import answers with an error, the callback returns an
    error whose message ends with that error's message; an update does
    so for every call but its own [Update]. *)
Theorem callbacks_return_call_errors {R : Remote}
    (removed : string -> bool) (splitID : string -> string * string)
    (d : ResourceData) (w : World R) (e : Event R) (err : error) :
  failureOf e = Some err ->
  (In e (trace (snd (run (resourceRancherVolumeRead removed) d w))) ->
   returnsError (fst (run (resourceRancherVolumeRead removed) d w)) err) /\
  (In e (trace (snd (run (resourceRancherVolumeCreate removed) d w))) ->
   returnsError (fst (run (resourceRancherVolumeCreate removed) d w)) err) /\
  (In e (trace (snd (run resourceRancherVolumeDelete d w))) ->
   returnsError (fst (run resourceRancherVolumeDelete d w)) err) /\
  (In e (trace (snd (run (resourceRancherVolumeImport splitID) d w))) ->
   returnsError (fst (run (resourceRancherVolumeImport splitID) d w)) err) /\
  (In e (trace (snd (run (resourceRancherVolumeUpdate removed) d w))) ->
   (forall c existing updates r, e <> EvUpdate c existing updates r) ->
   returnsError (fst (run (resourceRancherVolumeUpdate removed) d w)) err).
Proof.
  intros He. repeat split.
  - intros Hin. unfold run in *.
    destruct (read_errors removed (mkMachine d w [])) as (evs & Htr & Hev).
    rewrite Htr in Hin. exact (Hev e err Hin He).
  - intros Hin. exact (create_errors removed d w e err Hin He).
  - intros Hin. exact (delete_errors d w e err Hin He).
  - intros Hin. exact (import_errors splitID d w e err Hin He).
  - intros Hin Hnot. exact (update_errors removed d w e err Hin He Hnot).
Qed.

(** A delete whose remove call is refused. *)
Lemma callbacks_return_call_errors_witness :
  returnsError
    (fst (run (R:=Scripted.remote) resourceRancherVolumeDelete (Scripted.declared "vol-123")
            (Scripted.mkScript (Success tt) (Success (Scripted.vol "inactive"))
               [Scripted.seen "inactive"; Scripted.seen "inactive"; Scripted.seen "inactive"]
               (Success (Scripted.vol "inactive")) (Failure "remove refused"))))
    "remove refused".
Proof.
  apply (proj1 (proj2 (proj2 (callbacks_return_call_errors (R:=Scripted.remote)
           Scripted.removed Scripted.splitID (Scripted.declared "vol-123")
           (Scripted.mkScript (Success tt) (Success (Scripted.vol "inactive"))
              [Scripted.seen "inactive"; Scripted.seen "inactive"; Scripted.seen "inactive"]
              (Success (Scripted.vol "inactive")) (Failure "remove refused"))
           (EvActionRemove (R:=Scripted.remote) (Scripted.Scoped "env1")
              (Scripted.vol "inactive") (Failure "remove refused"))
           "remove refused" eq_refl)))).
  vm_compute. do 7 right. left. reflexivity.
Defined.

(** ** How a convergence ends *)

Section Ending.
Context {R : Remote}.
Implicit Types (m : Machine R) (conf : StateChangeConf R) (c : Client R).



(** Two requests that differ only in pending states that are also
    target states poll alike. *)
Lemma pollLoop_same conf conf' :
  Refresh conf = Refresh conf' ->
  Target conf = Target conf' ->
  MinTimeout conf = MinTimeout conf' ->
  (forall state, inStates state (Target conf) = false ->
                 inStates state (Pending conf) = inStates state (Pending conf')) ->
  forall budget last m, pollLoop conf budget last m = pollLoop conf' budget last m.
Proof.
  intros HR HT HM HP. induction budget as [|budget IH]; intros last m.
  - cbn. rewrite HT. reflexivity.
  - cbn [pollLoop]. rewrite !bind_run, <- HR.
    destruct (Refresh conf m) as [[[[[v|] state]|err]|e|] m1]; try reflexivity.
    + rewrite <- HT.
      destruct (inStates state (Target conf)) eqn:Ht; [reflexivity|].
      rewrite <- (HP state Ht).
      destruct (inStates state (Pending conf)); [|reflexivity].
      rewrite !bind_run, <- HM. unfold sleep. apply IH.
    + rewrite <- HT. reflexivity.
Qed.

End Ending.

Section DeletePanics.
Context {R : Remote}.
Implicit Types (d : ResourceData) (w : World R).


End DeletePanics.



(** X9.  The [removed] entry of the pending list of delete's removal
    request is dead: on every remote and from every state, polling with
    that request and polling with the request of the acceptance test,
    which leaves the entry out, end in the same result, world and
    trace. *)
Theorem removed_pending_entry_is_dead {R : Remote} (c : Client R) (id : string)
    (budget : nat) (last : string) (m : Machine R) :
  pollLoop (removeStateConf c id) budget last m =
  pollLoop (disappearsStateConf c id) budget last m.
Proof.
  apply pollLoop_same; try reflexivity.
  intros state. cbn [Target Pending removeStateConf disappearsStateConf inStates existsb].
  destruct (state =? "removed")%string; [discriminate|].
  intros _. rewrite !orb_false_r. reflexivity.
Qed.

(** ** What an import hands back *)

Section Imported.
Context {R : Remote} (splitID : string -> string * string).
Implicit Types (d : ResourceData) (w : World R).

Lemma import_ok d w ds :
  fst (run (resourceRancherVolumeImport splitID) d w) = Ok ds ->
  ds = [rd (snd (run (resourceRancherVolumeImport splitID) d w))] /\
  rd_id (rd (snd (run (resourceRancherVolumeImport splitID) d w))) = snd (splitID (rd_id d)) /\
  is_Some (rd_attrs (rd (snd (run (resourceRancherVolumeImport splitID) d w)))
             !! "environment_id").
Proof.
  unfold run, resourceRancherVolumeImport. go_pure.
  destruct (splitID (rd_id d)) as [envID resourceID]. go_pure. cbn [snd].
  destruct (negb (envID =? "")%string).
  - go_pure. cbn [fst snd rd rd_id rd_attrs]. intros [= <-].
    split; [reflexivity|]. split; [reflexivity|].
    rewrite lookup_insert_eq. eauto.
  - rewrite bind_run. go_call w1 r1.
    destruct r1 as [c|e1]; cbn [check]; go_pure; [|discriminate].
    go_call w2 r2.
    destruct r2 as [[v|]|e2]; cbn [check]; go_pure; cbn [deref]; go_pure;
      try discriminate.
    unfold d_Set. cbn [fst snd rd rd_id rd_attrs]. intros [= <-].
    split; [reflexivity|]. split; [reflexivity|].
    rewrite lookup_insert_eq. eauto.
Qed.

End Imported.

(** X10.  An import that returns nil hands back a slice of exactly one
    element, the resource data as the callback left it; its id is the
    resource part of the split input and its [environment_id] is set. *)
Theorem import_returns_d {R : Remote} (splitID : string -> string * string)
    (d : ResourceData) (w : World R) (ds : list ResourceData) :
  fst (run (resourceRancherVolumeImport splitID) d w) = Ok ds ->
  ds = [rd (snd (run (resourceRancherVolumeImport splitID) d w))] /\
  rd_id (rd (snd (run (resourceRancherVolumeImport splitID) d w))) = snd (splitID (rd_id d)) /\
  is_Some (rd_attrs (rd (snd (run (resourceRancherVolumeImport splitID) d w)))
             !! "environment_id").
Proof. apply import_ok. Qed.

Lemma import_returns_d_witness :
  let out := run (resourceRancherVolumeImport (R:=Scripted.remote) Scripted.splitID)
               (mkResourceData "vol-123" ∅) (Scripted.script [Scripted.seen "active"]) in
  rd_id (rd (snd out)) = "vol-123".
Proof.
  cbv zeta.
  assert (H : fst (run (resourceRancherVolumeImport (R:=Scripted.remote) Scripted.splitID)
                     (mkResourceData "vol-123" ∅)
                     (Scripted.script [Scripted.seen "active"])) =
              Ok [mkResourceData "vol-123"
                    (<["environment_id" := "env1"]> (∅ : gmap string string))])
    by (vm_compute; reflexivity).
  destruct (import_returns_d (R:=Scripted.remote) Scripted.splitID _ _ _ H) as (_ & Hid & _).
  rewrite Hid. reflexivity.
Defined.

(** ** What a read refreshes *)

Section Declared.
Context {R : Remote} (removed : string -> bool) (splitID : string -> string * string).

Lemma declared_written (key : string) (s : schema_Schema) :
  Schema (resourceRancherVolume (R:=R) removed splitID) !! key = Some s ->
  Computed s = false ->
  In key ["name"; "description"; "driver"; "environment_id"].
Proof.
  cbn [Schema resourceRancherVolume]. rewrite !lookup_insert, lookup_empty.
  repeat case_decide; subst; cbn [In]; intros [= <-]; cbn [Computed]; intros; auto 6;
    discriminate.
Qed.

End Declared.

(** X11.  A read that finds the volume and does not find it removed
    sets every attribute the resource table declares and does not mark
    computed, each from the field of the volume that bears its name;
    so after a successful refresh no declared input is missing from the
    bag. *)
Theorem read_refreshes_declared {R : Remote}
    (removed : string -> bool) (splitID : string -> string * string)
    (d : ResourceData) (w w1 w2 : World R) (c : Client R) (v : Volume)
    (key : string) (s : schema_Schema) :
  EnvironmentClient R (Get d "environment_id") w = (w1, Success c) ->
  Volume_ById R c (rd_id d) w1 = (w2, Success (Some v)) ->
  removed (State v) = false ->
  Schema (resourceRancherVolume (R:=R) removed splitID) !! key = Some s ->
  Computed s = false ->
  exists field,
    In (key, field) [("name", Name); ("description", Description);
                     ("driver", Driver); ("environment_id", AccountId)] /\
    rd_attrs (rd (snd (run (Read (resourceRancherVolume removed splitID)) d w))) !! key =
      Some (field v).
Proof.
  intros H1 H2 Hr Hs Hc. cbn [Read resourceRancherVolume].
  rewrite (read_found removed d w w1 c w2 (Some v) H1 H2). cbn [snd rd refreshed].
  rewrite Hr. cbn [rd_attrs].
  destruct (declared_written removed splitID key s Hs Hc) as [<-|[<-|[<-|[<-|[]]]]].
  - exists Name. split; [cbn; auto|]. by simplify_map_eq.
  - exists Description. split; [cbn; auto|]. by simplify_map_eq.
  - exists Driver. split; [cbn; auto|]. by simplify_map_eq.
  - exists AccountId. split; [cbn; auto 6|]. by simplify_map_eq.
Qed.

Lemma read_refreshes_declared_witness :
  rd_attrs (rd (snd (run (Read (resourceRancherVolume (R:=Scripted.remote)
                                  Scripted.removed Scripted.splitID))
                       (mkResourceData "vol-123" (<["environment_id" := "env1"]> ∅))
                       (Scripted.script [Scripted.seen "active"])))) !! "driver" =
  Some "rancher-nfs".
Proof.
  destruct (read_refreshes_declared (R:=Scripted.remote) Scripted.removed Scripted.splitID
              (mkResourceData "vol-123" (<["environment_id" := "env1"]> ∅))
              (Scripted.script [Scripted.seen "active"])
              (Scripted.script [Scripted.seen "active"]) (Scripted.script [])
              (Scripted.Scoped "env1") (Scripted.vol "active")
              "driver" (mkSchema false true false false))
    as (field & Hin & Hv); [vm_compute; reflexivity..|].
  rewrite Hv. cbn in Hin.
  destruct Hin as [[= _]|[[= _]|[[= <-]|[[= _]|[]]]]].
  reflexivity.
Defined.

(** ** The acceptance-test helpers *)

Section Exists.
Context {R : Remote}.
Implicit Types (d : ResourceData) (w : World R) (s : gmap string ResourceState).

Lemma exists_missing n s d w :
  s !! n = None ->
  run (testAccCheckRancherVolumeExists n s) d w = (Err ("Not found: " +:+ n), mkMachine d w []).
Proof. intros H. unfold run, testAccCheckRancherVolumeExists. rewrite H. reflexivity. Qed.

Lemma exists_no_id n s d w rs p :
  s !! n = Some rs -> Primary rs = Some p -> ID p = "" ->
  run (testAccCheckRancherVolumeExists n s) d w = (Err "No App Name is set", mkMachine d w []).
Proof.
  intros H Hp Hid. unfold run, testAccCheckRancherVolumeExists. rewrite H.
  unfold primary. rewrite Hp. go_pure. rewrite Hid. reflexivity.
Qed.

Lemma exists_absent n s d w rs p w1 c w2 :
  s !! n = Some rs -> Primary rs = Some p -> ID p <> "" ->
  EnvironmentClient R (default "" (Attributes p !! "environment_id")) w = (w1, Success c) ->
  Volume_ById R c (ID p) w1 = (w2, Success None) ->
  fst (run (testAccCheckRancherVolumeExists n s) d w) = Panic.
Proof.
  intros H Hp Hid H1 H2. unfold run, testAccCheckRancherVolumeExists. rewrite H.
  unfold primary. rewrite Hp. go_pure.
  destruct (String.eqb_spec (ID p) "") as [E|_]; [contradiction|].
  go_pure. go_known H1. cbn [check]. go_pure. go_known H2. cbn [check]. go_pure.
  reflexivity.
Qed.

Lemma exists_ok n s d w v :
  fst (run (testAccCheckRancherVolumeExists n s) d w) = Ok v ->
  exists rs p c,
    s !! n = Some rs /\ Primary rs = Some p /\ ID p <> "" /\ Id v = ID p /\
    trace (snd (run (testAccCheckRancherVolumeExists n s) d w)) =
      [EvEnvironmentClient (default "" (Attributes p !! "environment_id")) (Success c);
       EvById c (ID p) (Success (Some v))].
Proof.
  unfold run, testAccCheckRancherVolumeExists.
  destruct (s !! n) as [rs|] eqn:H; [|discriminate].
  unfold primary. destruct (Primary rs) as [p|] eqn:Hp; [|discriminate].
  go_pure.
  destruct (String.eqb_spec (ID p) "") as [E|Hid]; [discriminate|].
  go_pure. go_call w1 r1.
  destruct r1 as [c|e1]; cbn [check]; go_pure; [|discriminate].
  go_call w2 r2.
  destruct r2 as [[found|]|e2]; cbn [check]; go_pure; cbn [deref]; go_pure;
    try discriminate.
  destruct (String.eqb_spec (Id found) (ID p)) as [E|_]; cbn [negb]; [|discriminate].
  cbn [deref ret fst snd trace]. intros [= <-].
  exists rs, p, c. repeat split; assumption || reflexivity.
Qed.

End Exists.

(** X12.  The existence check of the acceptance test makes no outbound
    call when the state has no resource of the given name or records an
    empty id for it, and returns the two errors of lines 132 and 136.
    When it returns nil, the volume it hands back was found by the id
    the state records, through the client of the environment the state
    records, by exactly one lookup, and carries that id.  A lookup that
    finds no volume makes the check panic. *)
Theorem exists_check {R : Remote} (n : string) (s : gmap string ResourceState)
    (d : ResourceData) (w : World R) :
  (s !! n = None ->
   run (testAccCheckRancherVolumeExists n s) d w =
     (Err ("Not found: " +:+ n), mkMachine d w [])) /\
  (forall rs p, s !! n = Some rs -> Primary rs = Some p -> ID p = "" ->
   run (testAccCheckRancherVolumeExists n s) d w =
     (Err "No App Name is set", mkMachine d w [])) /\
  (forall v, fst (run (testAccCheckRancherVolumeExists n s) d w) = Ok v ->
   exists rs p c,
     s !! n = Some rs /\ Primary rs = Some p /\ ID p <> "" /\ Id v = ID p /\
     trace (snd (run (testAccCheckRancherVolumeExists n s) d w)) =
       [EvEnvironmentClient (default "" (Attributes p !! "environment_id")) (Success c);
        EvById c (ID p) (Success (Some v))]) /\
  (forall rs p w1 c w2,
     s !! n = Some rs -> Primary rs = Some p -> ID p <> "" ->
     EnvironmentClient R (default "" (Attributes p !! "environment_id")) w = (w1, Success c) ->
     Volume_ById R c (ID p) w1 = (w2, Success None) ->
     fst (run (testAccCheckRancherVolumeExists n s) d w) = Panic).
Proof.
  split; [apply exists_missing|].
  split; [intros rs p; apply exists_no_id|].
  split; [apply exists_ok|].
  intros rs p w1 c w2. apply exists_absent.
Qed.

(** A volume recorded under ["rancher_volume.foo"] and found. *)
Lemma exists_check_witness :
  let s : gmap string ResourceState :=
    <["rancher_volume.foo" :=
        mkResourceState "rancher_volume"
          (Some (mkInstanceState "vol-123" (<["environment_id" := "env1"]> ∅)))]> ∅ in
  exists rs p c,
    s !! "rancher_volume.foo" = Some rs /\ Primary rs = Some p /\ ID p <> "" /\
    Id (Scripted.vol "active") = ID p /\
    trace (snd (run (R:=Scripted.remote)
                  (testAccCheckRancherVolumeExists "rancher_volume.foo" s)
                  (Scripted.declared "") (Scripted.script [Scripted.seen "active"]))) =
      [EvEnvironmentClient (default "" (Attributes p !! "environment_id")) (Success c);
       EvById c (ID p) (Success (Some (Scripted.vol "active")))].
Proof.
  cbv zeta.
  apply (proj1 (proj2 (proj2 (exists_check (R:=Scripted.remote) _ _ _ _)))).
  vm_compute. reflexivity.
Defined.

Section Destroy.
Context {R : Remote}.
Implicit Types (m : Machine R) (rs : ResourceState) (resources : list ResourceState).

Lemma destroy_skips pre resources m :
  Forall (fun rs => rs_Type rs <> "rancher_volume") pre ->
  testAccCheckRancherVolumeDestroy (pre ++ resources) m =
  testAccCheckRancherVolumeDestroy resources m.
Proof.
  induction 1 as [|rs pre Hrs _ IH]; [reflexivity|].
  cbn [app testAccCheckRancherVolumeDestroy].
  destruct (String.eqb_spec (rs_Type rs) "rancher_volume") as [E|_]; [contradiction|].
  exact IH.
Qed.

Lemma destroy_first rs rest m :
  rs_Type rs = "rancher_volume" ->
  testAccCheckRancherVolumeDestroy (rs :: rest) m =
  testAccCheckRancherVolumeDestroy [rs] m.
Proof.
  intros E. cbn [testAccCheckRancherVolumeDestroy]. rewrite E. reflexivity.
Qed.

Lemma destroy_verdict rs rest p m w1 c w2 r :
  rs_Type rs = "rancher_volume" ->
  Primary rs = Some p ->
  GlobalClient R (remote m) = (w1, Success c) ->
  Volume_ById R c (ID p) w1 = (w2, r) ->
  testAccCheckRancherVolumeDestroy (rs :: rest) m =
    (match r with
     | Success (Some v) =>
         if String.eqb (Id v) (ID p) && negb (String.eqb (State v) "removed")
         then Err "Volume still exists" else Ok tt
     | _ => Ok tt
     end,
     mkMachine (rd m) w2 (trace m ++ [EvGlobalClient (Success c); EvById c (ID p) r])).
Proof.
  intros E Hp H1 H2. cbn [testAccCheckRancherVolumeDestroy]. rewrite E.
  cbn [String.eqb Ascii.eqb Bool.eqb negb]. unfold primary. rewrite Hp.
  go_known H1. cbn [check]. go_pure. go_known H2. rewrite <- app_assoc. cbn [app].
  destruct r as [[v|]|err]; try reflexivity.
  go_pure. destruct (_ && _); reflexivity.
Qed.

End Destroy.

(** X13.  The destroy check looks at one resource only: whatever comes
    before the first [rancher_volume] in the order of the range is
    skipped, and whatever comes after it is never read, so the check
    runs as on that one resource alone.  With no [rancher_volume] at
    all it returns nil without an outbound call. *)
Theorem destroy_checks_first_volume_only {R : Remote}
    (pre rest : list ResourceState) (rs : ResourceState) (m : Machine R) :
  Forall (fun rs => rs_Type rs <> "rancher_volume") pre ->
  (rs_Type rs = "rancher_volume" ->
   testAccCheckRancherVolumeDestroy (pre ++ rs :: rest) m =
   testAccCheckRancherVolumeDestroy [rs] m) /\
  testAccCheckRancherVolumeDestroy pre m = (Ok tt, m).
Proof.
  intros Hpre. split.
  - intros E. rewrite (destroy_skips pre (rs :: rest) m Hpre). apply destroy_first. exact E.
  - rewrite <- (app_nil_r pre). rewrite (destroy_skips pre [] m Hpre). reflexivity.
Qed.

(** Two volumes, the first removed and the second still active, after
    an environment: the check passes on the first and never sees the
    second. *)
Lemma destroy_checks_first_volume_only_witness :
  let env := mkResourceState "rancher_environment" (Some (mkInstanceState "1a5" ∅)) in
  let gone := mkResourceState "rancher_volume" (Some (mkInstanceState "vol-123" ∅)) in
  let alive := mkResourceState "rancher_volume" (Some (mkInstanceState "vol-456" ∅)) in
  let m := mkMachine (R:=Scripted.remote) (Scripted.declared "")
             (Scripted.script [Scripted.seen "removed"; Scripted.seen "active"]) [] in
  testAccCheckRancherVolumeDestroy ([env] ++ gone :: [alive]) m =
  testAccCheckRancherVolumeDestroy [gone] m.
Proof.
  cbv zeta.
  apply (proj1 (destroy_checks_first_volume_only (R:=Scripted.remote)
           [mkResourceState "rancher_environment" (Some (mkInstanceState "1a5" ∅))]
           [mkResourceState "rancher_volume" (Some (mkInstanceState "vol-456" ∅))]
           (mkResourceState "rancher_volume" (Some (mkInstanceState "vol-123" ∅)))
           _
           ltac:(constructor; [discriminate|constructor]))).
  reflexivity.
Defined.

(** X14.  On the first [rancher_volume] of the range, with the global
    client resolved, the destroy check makes one lookup by the recorded
    id and fails with "Volume still exists" exactly when the lookup
    finds a volume of that id whose state is not [removed].  A lookup
    that fails, or finds nothing, or finds another id, passes the
    check. *)
Theorem destroy_verdict_of_lookup {R : Remote}
    (rs : ResourceState) (rest : list ResourceState) (p : InstanceState)
    (m : Machine R) (w1 w2 : World R) (c : Client R) (r : result (option Volume)) :
  rs_Type rs = "rancher_volume" ->
  Primary rs = Some p ->
  GlobalClient R (remote m) = (w1, Success c) ->
  Volume_ById R c (ID p) w1 = (w2, r) ->
  snd (testAccCheckRancherVolumeDestroy (rs :: rest) m) =
    mkMachine (rd m) w2 (trace m ++ [EvGlobalClient (Success c); EvById c (ID p) r]) /\
  (fst (testAccCheckRancherVolumeDestroy (rs :: rest) m) = Err "Volume still exists" <->
   exists v, r = Success (Some v) /\ Id v = ID p /\ State v <> "removed") /\
  (fst (testAccCheckRancherVolumeDestroy (rs :: rest) m) <> Err "Volume still exists" ->
   fst (testAccCheckRancherVolumeDestroy (rs :: rest) m) = Ok tt).
Proof.
  intros E Hp H1 H2. rewrite (destroy_verdict rs rest p m w1 c w2 r E Hp H1 H2).
  cbn [fst snd]. split; [reflexivity|].
  destruct r as [[v|]|err].
  - destruct (String.eqb_spec (Id v) (ID p)) as [Hid|Hid];
      destruct (String.eqb_spec (State v) "removed") as [Hst|Hst]; cbn [andb negb].
    + split; [split; [discriminate|intros (v' & [= <-] & _ & Hne); contradiction]|reflexivity].
    + split; [split; [intros _; eauto|reflexivity]|intros Hno; contradiction].
    + split; [split; [discriminate|intros (v' & [= <-] & Heq & _); contradiction]|reflexivity].
    + split; [split; [discriminate|intros (v' & [= <-] & Heq & _); contradiction]|reflexivity].
  - split; [split; [discriminate|intros (v' & Hr & _); discriminate Hr]|reflexivity].
  - split; [split; [discriminate|intros (v' & Hr & _); discriminate Hr]|reflexivity].
Qed.

(** A lookup that the remote refuses: the check passes. *)
Lemma destroy_verdict_of_lookup_witness :
  fst (testAccCheckRancherVolumeDestroy (R:=Scripted.remote)
         [mkResourceState "rancher_volume" (Some (mkInstanceState "vol-123" ∅))]
         (mkMachine (R:=Scripted.remote) (Scripted.declared "")
            (Scripted.script [Failure "lookup refused"]) [])) =
  Ok tt.
Proof.
  apply (proj2 (proj2 (destroy_verdict_of_lookup (R:=Scripted.remote)
           (mkResourceState "rancher_volume" (Some (mkInstanceState "vol-123" ∅))) []
           (mkInstanceState "vol-123" ∅)
           (mkMachine (R:=Scripted.remote) (Scripted.declared "")
            (Scripted.script [Failure "lookup refused"]) [])
           (Scripted.script [Failure "lookup refused"]) (Scripted.script [])
           Scripted.Global (Failure "lookup refused") eq_refl eq_refl eq_refl eq_refl))).
  vm_compute. discriminate.
Defined.
